(** * blend: the resource model and the requirement merge

    A shallow embedding of [pipeline/Resource.py] and of the pieces of the
    Python 2 standard library it calls ([str] methods, [os.path], [re],
    [os.walk], [shutil.copyfile]), followed by the properties of the
    resource model: base-name normalisation, the requirement scan,
    discovery of resources below the search roots and the merge. *)

From Stdlib Require Import String Ascii List Bool Arith ZArith Lia Sorted.
Import ListNotations.

(** ** Python byte strings

    The program runs on Python 2: a [str] is a sequence of bytes.  String
    literals of the source are written as Rocq string literals and read as
    lists of characters. *)

Definition str := list ascii.

Coercion list_ascii_of_string : string >-> list.

Open Scope string_scope.
Open Scope list_scope.
Open Scope nat_scope.

Module Py.

(** [a == b] on strings. *)
Fixpoint str_eqb (a b : str) : bool :=
  match a, b with
  | [], [] => true
  | x :: a', y :: b' => Ascii.eqb x y && str_eqb a' b'
  | _, _ => false
  end.

(** [s.lower()] in the C locale: only [A-Z] change. *)
Definition lower_char (c : ascii) : ascii :=
  let n := nat_of_ascii c in
  if (65 <=? n) && (n <=? 90) then ascii_of_nat (n + 32) else c.

Definition lower (s : str) : str := map lower_char s.

(** [s[i:j]], [s[:j]], [s[i:]] for indices that are not negative. *)
Definition slice (s : str) (i j : nat) : str := firstn (j - i) (skipn i s).
Definition slice_to (s : str) (j : nat) : str := firstn j s.
Definition slice_from (s : str) (i : nat) : str := skipn i s.

(** [s[-n:]] and [s[:-n]] for [n > 0]: the index [-n] stands for
    [len(s) - n], clipped at [0]. *)
Definition last_n (s : str) (n : nat) : str := skipn (length s - n) s.
Definition drop_last_n (s : str) (n : nat) : str := firstn (length s - n) s.

(** [s.rfind(c)] for a one-character [c]: the highest index of [c], or
    [-1]. *)
Fixpoint rfind_from (c : ascii) (s : str) (i : Z) (found : Z) : Z :=
  match s with
  | [] => found
  | x :: s' => rfind_from c s' (i + 1)%Z (if Ascii.eqb x c then i else found)
  end.

Definition rfind (s : str) (c : ascii) : Z := rfind_from c s 0%Z (-1)%Z.

(** [s.rpartition(c)] for a one-character separator: split at the last
    occurrence; without any occurrence the result is [('', '', s)]. *)
Definition rpartition (s : str) (c : ascii) : str * str * str :=
  let i := rfind s c in
  if (i <? 0)%Z then ([], [], s)
  else (slice_to s (Z.to_nat i), [c], slice_from s (Z.to_nat i + 1)).

(** [s.rstrip(c)]. *)
Definition rstrip (s : str) (c : ascii) : str :=
  fold_right (fun x acc =>
                match acc with
                | [] => if Ascii.eqb x c then [] else [x]
                | _ => x :: acc
                end) [] s.

(** [s.startswith(c)], [s.endswith(c)]. *)
Definition startswith (s : str) (c : ascii) : bool :=
  match s with x :: _ => Ascii.eqb x c | [] => false end.

Definition endswith (s : str) (c : ascii) : bool :=
  match rev s with x :: _ => Ascii.eqb x c | [] => false end.

End Py.

(** ** [os.path] (posixpath) *)

Module OsPath.
Import Py.

(** [posixpath.split]:
<<
    i = p.rfind('/') + 1
    head, tail = p[:i], p[i:]
    if head and head != '/'*len(head):
        head = head.rstrip('/')
    return head, tail
>> *)
Definition split (p : str) : str * str :=
  let i := Z.to_nat (rfind p "/"%char + 1) in
  let head := slice_to p i in
  let tail := slice_from p i in
  let head :=
    if negb (str_eqb head []) && negb (str_eqb head (repeat "/"%char (length head)))
    then rstrip head "/"%char else head in
  (head, tail).

Definition dirname (p : str) : str := fst (split p).

(** [genericpath._splitext] with [sep = '/'], no [altsep], [extsep = '.']:
<<
    sepIndex = p.rfind(sep)
    dotIndex = p.rfind(extsep)
    if dotIndex > sepIndex:
        # skip all leading dots
        filenameIndex = sepIndex + 1
        while filenameIndex < dotIndex:
            if p[filenameIndex] != extsep:
                return p[:dotIndex], p[dotIndex:]
            filenameIndex += 1
    return p, ''
>> *)
Definition splitext (p : str) : str * str :=
  let sepIndex := rfind p "/"%char in
  let dotIndex := rfind p "."%char in
  if (sepIndex <? dotIndex)%Z
     && existsb (fun x => negb (Ascii.eqb x "."%char))
                (slice p (Z.to_nat (sepIndex + 1)) (Z.to_nat dotIndex))
  then (slice_to p (Z.to_nat dotIndex), slice_from p (Z.to_nat dotIndex))
  else (p, []).

(** [posixpath.join(a, b)]. *)
Definition join (a b : str) : str :=
  if startswith b "/"%char then b
  else if str_eqb a [] || endswith a "/"%char then a ++ b
  else a ++ "/" ++ b.

End OsPath.

(** ** Exceptions *)

Inductive exn : Type :=
| Exception      (* raised by [Resource.__init__] on a missing path *)
| TypeError      (* [None] used as a string or as an iterable *)
| IOError        (* [open] on a path that cannot be opened *)
| OSError        (* [os.makedirs] where no directory can be made *)
| ShutilError.   (* [shutil.Error]: source and destination are the same file *)

Inductive result (A : Type) : Type :=
| Ok (a : A)
| Raise (e : exn).

Arguments Ok {A} a.
Arguments Raise {A} e.

Definition bind {A B} (c : result A) (k : A -> result B) : result B :=
  match c with
  | Ok a => k a
  | Raise e => Raise e
  end.

Notation "x <- c ;; k" := (bind c (fun x => k))
  (at level 61, c at next level, right associativity).

(** A [for] loop that threads a value through its body and stops at the
    first exception. *)
Fixpoint for_each {A S} (l : list A) (body : S -> A -> result S) (s : S) : result S :=
  match l with
  | [] => Ok s
  | a :: l' => s' <- body s a ;; for_each l' body s'
  end.

(** ** Base name, extension and file type *)

(** [Resource._parse_extension_and_file_type]. *)
Definition _parse_extension_and_file_type (path_to_file : str) : str * str :=
  let '(base_name, ext) := OsPath.splitext path_to_file in
  let ext := Py.slice_from (Py.lower ext) 1 in
  let file_type : str :=
    if Py.str_eqb ext "js" || Py.str_eqb ext "javascript" then "javascript"
    else if Py.str_eqb ext "css" then "css"
    else "unknown" in
  (ext, file_type).

(** [Resource._parse_base_name]. *)
Definition _parse_base_name (path_to_file : str) : str :=
  let '(directory, file) := OsPath.split path_to_file in
  let '(name, dot, extension) := Py.rpartition file "."%char in
  let lower_name := Py.lower name in
  let lower_name :=
    if Py.str_eqb (Py.last_n lower_name 4) "-min"
    then Py.drop_last_n lower_name 4 else lower_name in
  let '(lower_name_without_version, dash, version) := Py.rpartition lower_name "-"%char in
  if Py.str_eqb dash [] then lower_name else lower_name_without_version.

(** ** Regular expressions ([re])

    The two patterns of the program use literals, character classes,
    greedy [*] and [+] on a character class, and capturing groups that are
    not nested.  [re] matches by backtracking: a greedy repetition first
    takes as many characters as it can and gives them back one at a time
    while the rest of the pattern fails. *)

Inductive regex : Type :=
| Eps
| Chr (c : ascii)
| Cls (p : ascii -> bool)
| Star (p : ascii -> bool)
| Plus (p : ascii -> bool)
| Grp (r : regex)
| Cat (r1 r2 : regex).

(** A literal string, and the concatenation of a list of patterns. *)
Definition literal (s : str) : regex := fold_right (fun c r => Cat (Chr c) r) Eps s.
Definition cat (rs : list regex) : regex := fold_right Cat Eps rs.

Module Re.

(** [greedy p k s]: take the longest run of [p] at the head of [s] for
    which the continuation [k] succeeds on the rest. *)
Fixpoint greedy {R} (p : ascii -> bool) (k : str -> option R) (s : str) : option R :=
  match s with
  | x :: s' =>
      if p x then
        match greedy p k s' with
        | Some r => Some r
        | None => k s
        end
      else k s
  | [] => k s
  end.

(** [run r s gs k]: match [r] at the head of [s], having closed the groups
    [gs] so far, and hand the rest of the input and the groups to [k];
    when [k] fails the next alternative of [r] is tried. *)
Fixpoint run {R} (r : regex) (s : str) (gs : list str)
         (k : str -> list str -> option R) : option R :=
  match r with
  | Eps => k s gs
  | Chr c =>
      match s with
      | x :: s' => if Ascii.eqb x c then k s' gs else None
      | [] => None
      end
  | Cls p =>
      match s with
      | x :: s' => if p x then k s' gs else None
      | [] => None
      end
  | Star p => greedy p (fun s' => k s' gs) s
  | Plus p =>
      match s with
      | x :: s' => if p x then greedy p (fun s'' => k s'' gs) s' else None
      | [] => None
      end
  | Grp r1 =>
      run r1 s gs (fun s' gs' => k s' (gs' ++ [firstn (length s - length s') s]))
  | Cat r1 r2 => run r1 s gs (fun s' gs' => run r2 s' gs' k)
  end.

(** [pattern.match(s)]: the length of the match at the head of [s] and
    its groups. *)
Definition match_at (r : regex) (s : str) : option (nat * list str) :=
  run r s [] (fun s' gs => Some (length s - length s', gs)).

(** A match object: [start()], [end()], [groups()]. *)
Record match_object : Type := {
  m_start : nat;
  m_end : nat;
  m_groups : list str
}.

(** [pattern.finditer(s)]: the matches from left to right, none
    overlapping another.  [pos] is the offset of [s] in the whole string
    and [skip] the number of characters of [s] that the previous match
    still covers.  After an empty match the scan resumes one character
    further. *)
Fixpoint finditer_from (r : regex) (pos skip : nat) (s : str) : list match_object :=
  match skip with
  | S skip' =>
      match s with
      | [] => []
      | _ :: s' => finditer_from r (S pos) skip' s'
      end
  | O =>
      match match_at r s with
      | Some (n, gs) =>
          {| m_start := pos; m_end := pos + n; m_groups := gs |}
            :: match s with
               | [] => []
               | _ :: s' => finditer_from r (S pos) (n - 1) s'
               end
      | None =>
          match s with
          | [] => []
          | _ :: s' => finditer_from r (S pos) 0 s'
          end
      end
  end.

Definition finditer (r : regex) (s : str) : list match_object :=
  finditer_from r 0 0 s.

(** [\s] on byte strings: space, [\t], [\n], [\v], [\f], [\r]. *)
Definition is_space (c : ascii) : bool :=
  let n := nat_of_ascii c in
  (n =? 32) || ((9 <=? n) && (n <=? 13)).

(** [\S] *)
Definition non_space (c : ascii) : bool := negb (is_space c).

(** [[ \t]] *)
Definition blank (c : ascii) : bool :=
  Ascii.eqb c " "%char || Ascii.eqb c "009"%char.

(** [[<"]] and [[>"]] *)
Definition opening (c : ascii) : bool :=
  Ascii.eqb c "<"%char || Ascii.eqb c "034"%char.
Definition closing (c : ascii) : bool :=
  Ascii.eqb c ">"%char || Ascii.eqb c "034"%char.

End Re.

(** The double quote and the line feed, for the literals that hold them. *)
Definition dq : str := ["034"%char].
Definition nl : str := ["010"%char].

(** [\s*//=[ \t]+require[ \t]+([<"])(\S+)[>"][ \t]*] *)
Definition js_require_re : regex :=
  cat [Star Re.is_space; literal "//="; Plus Re.blank; literal "require";
       Plus Re.blank; Grp (Cls Re.opening); Grp (Plus Re.non_space);
       Cls Re.closing; Star Re.blank].

(** [\@import url\((")(\S+)"\)] *)
Definition css_require_re : regex :=
  cat [literal "@import url("; Grp (Chr "034"%char); Grp (Plus Re.non_space);
       Chr "034"%char; Chr ")"%char].

(** ** Requirement and Environment *)

(** Modelled from the spec: the class [Requirement] ([Requirement.py] is
    not among the sources).  It is a data holder with three read-only
    fields: the name, the type (['global'] or ['local']) and the location
    [(start, end)] of the declaration in the content of the resource.  The
    program constructs it in [Resource._set_requirements] only. *)
Record Requirement : Type := {
  name : str;
  type : str;
  insert_location : nat * nat
}.

(** Modelled from the spec: the class [Environment] ([Environment.py] is
    not among the sources); the program reads only its [paths], the ordered
    search roots. *)
Record Environment : Type := {
  paths : list str
}.

(** ** Resource *)

Record Resource : Type := {
  path_to_file : str;
  extension : str;
  file_type : str;
  base_name : str;
  content : option str;
  requirements : option (list Requirement)
}.

(** The pattern [require_re] that [Resource._set_requirements] compiles for
    a file type that is not ['unknown']. *)
Definition require_re (file_type : str) : regex :=
  if Py.str_eqb file_type "javascript" then js_require_re else css_require_re.

(** The requirement that the loop of [Resource._set_requirements] builds
    from a match. *)
Definition requirement_of_match (result : Re.match_object) : Requirement :=
  let type : str :=
    if Py.str_eqb (nth 0 (Re.m_groups result) []) "<" then "global" else "local" in
  let name := nth 1 (Re.m_groups result) [] in
  let insert_position := (Re.m_start result, Re.m_end result) in
  {| name := name; type := type; insert_location := insert_position |}.

(** The body of that loop: the list is created when the first requirement
    is appended. *)
Definition add_requirement (reqs : option (list Requirement)) (result : Re.match_object)
  : option (list Requirement) :=
  let reqs := match reqs with None => [] | Some l => l end in
  Some (reqs ++ [requirement_of_match result]).

(** [Resource._set_requirements], as a function of the two fields it reads. *)
Definition _set_requirements (file_type : str) (content : option str)
  : option (list Requirement) :=
  match Py.str_eqb file_type "unknown", content with
  | true, _ | _, None => None
  | false, Some text => fold_left add_requirement (Re.finditer (require_re file_type) text) None
  end.

Definition test_js_content : str :=
  "//= require <jquery>" ++ nl ++ "var foo = {};//= require " ++ dq ++ "openlayers" ++ dq
    ++ nl ++ " var s = " ++ dq ++ "some other thing" ++ dq ++ nl.

Definition test_css_content : str :=
  "h1 {background:red;}" ++ nl ++ " @import url(" ++ dq ++ "something.css" ++ dq ++ ")".


(** ** The file system

    What the program sees of the operating system: the content of the
    regular file at a path ([None] when there is none), whether a path is a
    directory, whether two paths that are spelled differently name one
    file ([os.path.samefile], for links), and what [os.walk] yields for a
    root: for each directory below it, top-down, the triple
    [(dir_path, dir_names, file_names)].

    A regular file lies in a directory: the directory part of its path is
    empty, for a file of the current directory, or names a directory.

    A path is looked up as it is spelled.  Access rights are not part of
    the model: a path that names no directory can be opened for writing
    when the directory it lies in exists. *)
Record FileSystem : Type := {
  fs_file : str -> option str;
  fs_isdir : str -> bool;
  fs_samefile : str -> str -> bool;
  fs_walk : str -> list (str * list str * list str);
  fs_file_in_directory :
    forall p, fs_file p <> None ->
              Py.str_eqb (OsPath.dirname p) [] || fs_isdir (OsPath.dirname p) = true
}.

(** The file system with the given directories, links and walks, and with
    those of the given files that lie in one of the directories. *)
Definition file_system (file : str -> option str) (isdir : str -> bool)
           (samefile : str -> str -> bool) (walk : str -> list (str * list str * list str))
  : FileSystem :=
  let in_directory p := Py.str_eqb (OsPath.dirname p) [] || isdir (OsPath.dirname p) in
  {| fs_file := fun p => if in_directory p then file p else None;
     fs_isdir := isdir;
     fs_samefile := samefile;
     fs_walk := walk;
     fs_file_in_directory := fun p =>
       match in_directory p as b
             return (if b then file p else None) <> None -> b = true with
       | true => fun _ => eq_refl
       | false => fun H => False_ind _ (H eq_refl)
       end |}.

(** [os.path.exists(p)] *)
Definition os_path_exists (fs : FileSystem) (p : str) : bool :=
  match fs_file fs p with
  | Some _ => true
  | None => fs_isdir fs p
  end.

(** [open(p, 'r').read()]: fails on a path that is not a regular file. *)
Definition read_file (fs : FileSystem) (p : str) : result str :=
  match fs_file fs p with
  | Some data => Ok data
  | None => Raise IOError
  end.

(** What the program does to the file system. *)
Inductive io : Type :=
| MakeDirs (d : str)
| WriteFile (p : str) (data : str).

(** The files after an action, and after a sequence of them. *)
Definition perform (files : str -> option str) (a : io) : str -> option str :=
  match a with
  | MakeDirs _ => files
  | WriteFile p data => fun q => if Py.str_eqb q p then Some data else files q
  end.

Definition run_io (actions : list io) (files : str -> option str) : str -> option str :=
  fold_left perform actions files.

(** A last path component that can name a new entry of a directory. *)
Definition file_name (tail : str) : bool :=
  negb (Py.str_eqb tail [] || Py.str_eqb tail "." || Py.str_eqb tail "..").

(** Whether [os.makedirs(name)] succeeds for a [name] that does not exist:
    going up from [name], every component that is missing can be made, and
    what is met first is a directory, or the current directory when
    nothing is left of the path.  Below a regular file nothing can be
    made.  Each step up shortens the path, so its length is fuel enough. *)
Fixpoint can_make (fuel : nat) (fs : FileSystem) (name : str) : bool :=
  match fuel with
  | 0 => false
  | S fuel' =>
      let '(head, tail) := OsPath.split name in
      file_name tail
      && (Py.str_eqb head []
          || fs_isdir fs head
          || (negb (os_path_exists fs head) && can_make fuel' fs head))
  end.

(** [os.makedirs(name)] for a [name] that does not exist. *)
Definition makedirs (fs : FileSystem) (name : str) : result (list io) :=
  if can_make (length name) fs name then Ok [MakeDirs name] else Raise OSError.

(** Whether [d] is a directory once the directories of [made] are there. *)
Definition directory_after (fs : FileSystem) (made : list io) (d : str) : bool :=
  fs_isdir fs d
  || existsb (fun a => match a with
                       | MakeDirs d' => Py.str_eqb d' d
                       | WriteFile _ _ => false
                       end) made.

(** [open(p, 'w')] after the directories of [made] were created: fails on
    the empty path and on a path that ends in a separator or a dot
    component, on a directory, and on a path whose directory part is not a
    directory (it is missing, or it is a regular file). *)
Definition open_for_writing (fs : FileSystem) (made : list io) (p : str) : result unit :=
  let '(head, tail) := OsPath.split p in
  if file_name tail
     && negb (fs_isdir fs p)
     && (Py.str_eqb head [] || directory_after fs made head)
  then Ok tt else Raise IOError.

(** [f = open(p, 'w')] ... [f.write(data)] *)
Definition write_file (fs : FileSystem) (made : list io) (p : str) (data : str)
  : result (list io) :=
  _ <- open_for_writing fs made p ;; Ok [WriteFile p data].

(** [shutil._samefile(src, dst)]: [os.path.samefile] answers for two paths
    that exist, and the answer is no when one of them does not.  A path is
    the same file as itself. *)
Definition samefile (fs : FileSystem) (src dst : str) : bool :=
  os_path_exists fs src && os_path_exists fs dst
  && (Py.str_eqb src dst || fs_samefile fs src dst).

(** [shutil.copyfile(src, dst)]: refuses to copy a file onto itself,
    otherwise opens [src] for reading, then [dst] for writing, and writes
    the bytes of [src] to [dst]. *)
Definition copyfile (fs : FileSystem) (made : list io) (src dst : str) : result (list io) :=
  if samefile fs src dst then Raise ShutilError
  else data <- read_file fs src ;; write_file fs made dst data.

(** [Resource._set_content]: the value given to [_content]. *)
Definition _set_content (fs : FileSystem) (path_to_file : str) : result (option str) :=
  if os_path_exists fs path_to_file
  then data <- read_file fs path_to_file ;; Ok (Some data)
  else Ok None.

(** [Resource.__init__].  The argument is a string by its type; the empty
    string is refused. *)
Definition Resource_init (fs : FileSystem) (path_to_file : str) : result Resource :=
  match path_to_file with
  | [] => Raise Exception
  | _ =>
      let '(extension, file_type) := _parse_extension_and_file_type path_to_file in
      let base_name := _parse_base_name path_to_file in
      content <- _set_content fs path_to_file ;;
      Ok {| path_to_file := path_to_file;
            extension := extension;
            file_type := file_type;
            base_name := base_name;
            content := content;
            requirements := _set_requirements file_type content |}
  end.

(** ** Discovery *)

(** [Resource._find_all_of_type_in_path] *)
Definition _find_all_of_type_in_path (fs : FileSystem) (file_type_ : str) (path : str)
  : result (list Resource) :=
  for_each (fs_walk fs path)
    (fun resources '(dir_path, dir_names, file_names) =>
       for_each file_names
         (fun resources file_name =>
            resource <- Resource_init fs (OsPath.join dir_path file_name) ;;
            Ok (if Py.str_eqb (file_type resource) file_type_
                then resources ++ [resource] else resources))
         resources)
    [].

(** [Resource.find_all_of_type_in_environment] *)
Definition find_all_of_type_in_environment (fs : FileSystem) (file_type_ : str)
           (environment : Environment) : result (option (list Resource)) :=
  resources <- for_each (paths environment)
                 (fun resources path =>
                    found <- _find_all_of_type_in_path fs file_type_ path ;;
                    Ok (resources ++ found))
                 [] ;;
  Ok (if 0 <? length resources then Some resources else None).

(** ** Merge *)

(** The inner loop of the merge: the first resource of the pool whose base
    name is the name of the requirement is spliced in, and the loop stops. *)
Fixpoint splice_first_match (requirement : Requirement) (merged_content : str)
         (resources : list Resource) : result str :=
  match resources with
  | [] => Ok merged_content
  | resource :: rest =>
      if Py.str_eqb (base_name resource) (name requirement) then
        match content resource with
        | Some text =>
            Ok (Py.slice_to merged_content (fst (insert_location requirement) + 1)
                  ++ text
                  ++ Py.slice_from merged_content (snd (insert_location requirement)))
        | None => Raise TypeError
        end
      else splice_first_match requirement merged_content rest
  end.

(** The body of the outer loop: discovery is run again for each
    requirement, and its result is iterated over as it is. *)
Definition merge_requirement (fs : FileSystem) (file_type_ : str) (environment : Environment)
           (merged_content : str) (requirement : Requirement) : result str :=
  found <- find_all_of_type_in_environment fs file_type_ environment ;;
  match found with
  | None => Raise TypeError
  | Some resources => splice_first_match requirement merged_content resources
  end.

(** The output directory is created when the output path has a directory
    part that does not exist yet. *)
Definition ensure_directory (fs : FileSystem) (output_file_path : str) : list io :=
  if negb (Py.str_eqb (OsPath.dirname output_file_path) [])
     && negb (os_path_exists fs (OsPath.dirname output_file_path))
  then [MakeDirs (OsPath.dirname output_file_path)] else [].

(** The same step with its outcome:
<<
    if os.path.dirname(output_file_path) != '' and not os.path.exists(os.path.dirname(output_file_path)):
        os.makedirs(os.path.dirname(output_file_path))
>> *)
Definition create_directory (fs : FileSystem) (output_file_path : str) : result (list io) :=
  if negb (Py.str_eqb (OsPath.dirname output_file_path) [])
     && negb (os_path_exists fs (OsPath.dirname output_file_path))
  then makedirs fs (OsPath.dirname output_file_path) else Ok [].

(** [Resource.merge_requirements_from_environemnt]: the actions of a run
    on the file system, in order, or the exception that ends it.  Creating
    the output directory adds no file, so the walks of the discovery see
    the files that were there on entry.  The output file is opened after
    the loop over the requirements, so an exception of the loop comes
    before one of the write. *)
Definition merge_requirements_from_environemnt (fs : FileSystem) (self : Resource)
           (environment : Environment) (output_file_path : str) : result (list io) :=
  merged_content <- match content self with
                    | Some text => Ok text
                    | None => Raise TypeError
                    end ;;
  made <- create_directory fs output_file_path ;;
  match requirements self with
  | Some ((_ :: _) as reqs) =>
      merged_content <- for_each reqs
                          (merge_requirement fs (file_type self) environment)
                          merged_content ;;
      written <- write_file fs made output_file_path merged_content ;;
      Ok (made ++ written)
  | _ =>
      copied <- copyfile fs made (path_to_file self) output_file_path ;;
      Ok (made ++ copied)
  end.

(** An output path that the merge can write: its last component names a
    file, it is not a directory, and its directory part is empty (the
    current directory), is a directory, or does not exist and can be
    made. *)
Definition can_write (fs : FileSystem) (output_file_path : str) : bool :=
  let '(head, tail) := OsPath.split output_file_path in
  file_name tail
  && negb (fs_isdir fs output_file_path)
  && (Py.str_eqb head []
      || fs_isdir fs head
      || (negb (os_path_exists fs head) && can_make (length head) fs head)).

(** An output path that cannot be written whatever else holds: its last
    component names no file, it is a directory, or its directory part
    exists and is not a directory. *)
Definition unwritable (fs : FileSystem) (output_file_path : str) : bool :=
  let '(head, tail) := OsPath.split output_file_path in
  negb (file_name tail)
  || fs_isdir fs output_file_path
  || (negb (Py.str_eqb head []) && os_path_exists fs head && negb (fs_isdir fs head)).

(** ** A file system given by a directory tree

    The file systems of the scenarios below are built from a tree of
    directories and files; [os.walk] visits a directory, then its
    sub-directories in the order of the listing.  A tree has no links, and
    a path is looked up as the tree spells it, with single separators and
    without dot components: no two paths that are spelled differently name
    one file. *)
#[warnings="-register-all"] Inductive node : Type :=
| File (name : str) (data : str)
| Dir (name : str) (entries : list node).

Definition node_name (n : node) : str :=
  match n with
  | File name _ => name
  | Dir name _ => name
  end.

Definition is_dir (n : node) : bool :=
  match n with
  | File _ _ => false
  | Dir _ _ => true
  end.

(** What [os.walk] yields for the directory [n] found in [top]. *)
Fixpoint walk_node (top : str) (n : node) : list (str * list str * list str) :=
  match n with
  | File _ _ => []
  | Dir name entries =>
      let dir_path := OsPath.join top name in
      (dir_path,
       map node_name (filter is_dir entries),
       map node_name (filter (fun e => negb (is_dir e)) entries))
        :: flat_map (walk_node dir_path) entries
  end.

(** The directories of a tree, each with the path of its parent, and the
    files of a tree, each with its path. *)
Fixpoint dirs_of (top : str) (n : node) : list (str * node) :=
  match n with
  | File _ _ => []
  | Dir name entries => (top, n) :: flat_map (dirs_of (OsPath.join top name)) entries
  end.

Fixpoint files_of (top : str) (n : node) : list (str * str) :=
  match n with
  | File name data => [(OsPath.join top name, data)]
  | Dir name entries => flat_map (files_of (OsPath.join top name)) entries
  end.

Definition find_dir (root : node) (p : str) : option (str * node) :=
  find (fun d => Py.str_eqb (OsPath.join (fst d) (node_name (snd d))) p) (dirs_of [] root).

Definition tree_fs (root : node) : FileSystem :=
  file_system
    (fun p => option_map snd (find (fun f => Py.str_eqb (fst f) p) (files_of [] root)))
    (fun p => match find_dir root p with Some _ => true | None => false end)
    (fun _ _ => false)
    (fun top =>
       match find_dir root top with
       | Some (parent, n) => walk_node parent n
       | None => []
       end).

(** The layout of the merge test of the repository: two javascript files
    in two directories below the search root. *)
Definition file1_content : str := "// This is file 1" ++ nl ++ "//= require <file2>".
Definition file2_content : str := "// This is file 2".

Definition merge_test_fs : FileSystem :=
  tree_fs (Dir "/tmp/env"
             [Dir "dir1" [File "file1.js" file1_content];
              Dir "dir2" [File "file2.js" file2_content]]).

Definition merge_test_env : Environment := {| paths := ["/tmp/env" : str] |}.

(** The same two files with each directory as a search root of its own. *)
Definition two_roots_env : Environment :=
  {| paths := ["/tmp/env/dir1" : str; "/tmp/env/dir2" : str] |}.

(** A project whose library directory holds no javascript file. *)
Definition css_only_fs : FileSystem :=
  tree_fs (Dir "/proj"
             [File "app.js" ("//= require <jquery>" ++ nl ++ "var app = {};");
              Dir "lib" [File "style.css" "h1 {background:red;}"]]).

Definition css_only_env : Environment := {| paths := ["/proj/lib" : str] |}.

(** The resources that construction gives for the three javascript files
    of the scenarios. *)
Definition file1_resource : Resource :=
  {| path_to_file := "/tmp/env/dir1/file1.js";
     extension := "js";
     file_type := "javascript";
     base_name := "file1";
     content := Some file1_content;
     requirements :=
       Some [{| name := "file2"; type := "global"; insert_location := (17, 37) |}] |}.

Definition file2_resource : Resource :=
  {| path_to_file := "/tmp/env/dir2/file2.js";
     extension := "js";
     file_type := "javascript";
     base_name := "file2";
     content := Some file2_content;
     requirements := None |}.

Definition app_resource : Resource :=
  {| path_to_file := "/proj/app.js";
     extension := "js";
     file_type := "javascript";
     base_name := "app";
     content := Some ("//= require <jquery>" ++ nl ++ "var app = {};");
     requirements :=
       Some [{| name := "jquery"; type := "global"; insert_location := (0, 20) |}] |}.

(** ** Discovery, in words

    The paths of the files that [os.walk] lists below a root, in walk
    order, and below the roots of an environment, in root order. *)
Definition listed_files (fs : FileSystem) (root : str) : list str :=
  flat_map (fun '(dir_path, dir_names, file_names) => map (OsPath.join dir_path) file_names)
           (fs_walk fs root).

Definition candidates (fs : FileSystem) (environment : Environment) : list str :=
  flat_map (listed_files fs) (paths environment).

(** The file type that the extension of a path gives. *)
Definition file_type_of (p : str) : str := snd (_parse_extension_and_file_type p).

Definition has_type (file_type_ : str) (p : str) : bool :=
  Py.str_eqb (file_type_of p) file_type_.

(** A path that [os.walk] may list as a file name of a directory: it is
    not empty and does not name a directory. *)
Definition regular (fs : FileSystem) (p : str) : Prop :=
  p <> [] /\ fs_isdir fs p = false.

(** The resources constructed for a list of paths, one by one. *)
Definition constructed (fs : FileSystem) (ps : list str) (rs : list Resource) : Prop :=
  Forall2 (fun p r => Resource_init fs p = Ok r) ps rs.

(** ** The merge, in words

    The replacement as the specification words it: the text of the working
    buffer from [start] to [end] gives way to the content of the first
    resource of the pool that has the name of the requirement. *)
Definition replace_span (merged_content : str) (span : nat * nat) (text : str) : str :=
  firstn (fst span) merged_content ++ text ++ skipn (snd span) merged_content.

Definition replaces_whole_span (fs : FileSystem) (file_type_ : str)
           (environment : Environment) (merged_content : str) (requirement : Requirement)
  : Prop :=
  forall pre m post text,
    find_all_of_type_in_environment fs file_type_ environment = Ok (Some (pre ++ m :: post)) ->
    Forall (fun r => base_name r <> name requirement) pre ->
    base_name m = name requirement ->
    content m = Some text ->
    merge_requirement fs file_type_ environment merged_content requirement
    = Ok (replace_span merged_content (insert_location requirement) text).

(** The copy as the specification words it, for whatever resource has no
    requirements and whatever output path: the merge returns, and the
    output path then holds the bytes of the source path. *)
Definition copies_byte_for_byte (fs : FileSystem) (self : Resource)
           (environment : Environment) (output_file_path : str) : Prop :=
  exists actions,
    merge_requirements_from_environemnt fs self environment output_file_path = Ok actions /\
    run_io actions (fs_file fs) output_file_path = fs_file fs (path_to_file self).

(** The resource that construction gives for a path of the merge layout
    at which there is no file. *)
Definition file3_resource : Resource :=
  {| path_to_file := "/tmp/env/dir2/file3.js";
     extension := "js";
     file_type := "javascript";
     base_name := "file3";
     content := None;
     requirements := None |}.

(** ** The base name, in words

    The base name as the documentation words it: the file name without its
    extension, in lower case, without a trailing [-min], and without what
    follows the last hyphen that is left. *)
Definition without_extension (file : str) : str := fst (OsPath.splitext file).

Definition ends_with (s suffix : str) : bool :=
  Py.str_eqb (skipn (length s - length suffix) s) suffix.

Definition without_min (s : str) : str :=
  if ends_with s "-min" then firstn (length s - length ("-min" : str)) s else s.

(** The text before the last occurrence of a character, if it occurs. *)
Fixpoint before_last (c : ascii) (s : str) : option str :=
  match s with
  | [] => None
  | x :: s' =>
      match before_last c s' with
      | Some h => Some (x :: h)
      | None => if Ascii.eqb x c then Some [] else None
      end
  end.

Definition without_version (s : str) : str :=
  match before_last "-"%char s with
  | Some h => h
  | None => s
  end.

Definition base_name_in_words (path_to_file : str) : str :=
  without_version
    (without_min (Py.lower (without_extension (snd (OsPath.split path_to_file))))).

(** ** Further notions used by the properties

    An upper-case letter of the C locale. *)
Definition is_upper (c : ascii) : bool :=
  let n := nat_of_ascii c in (65 <=? n) && (n <=? 90).

(** [pattern in s]: the text [pattern] occurs in [s]. *)
Fixpoint is_prefix (pattern s : str) : bool :=
  match pattern, s with
  | [], _ => true
  | x :: pattern', y :: s' => Ascii.eqb x y && is_prefix pattern' s'
  | _ :: _, [] => false
  end.

Fixpoint contains (s pattern : str) : bool :=
  is_prefix pattern s ||
  match s with
  | [] => false
  | _ :: s' => contains s' pattern
  end.

(** The literal text that every declaration of a file type holds. *)
Definition marker (file_type_ : str) : str :=
  if Py.str_eqb file_type_ "javascript" then "//=" else "@import url(".

(** [Resource.exists] *)
Definition exists_ (fs : FileSystem) (self : Resource) : bool :=
  os_path_exists fs (path_to_file self).

(** A file name that follows the naming convention: a name, then
    optionally a hyphen and a version, then optionally [-min], then the
    extension. *)
Definition conventional_name (n : str) (version : option str) (minified : bool) (ext : str)
  : str :=
  n ++ match version with Some v => "-" ++ v | None => [] end
    ++ (if minified then "-min" : str else [])
    ++ "." ++ ext.

(** One step of the merge on a pool all of whose resources have content:
    the splice at the first resource that has the name of the requirement,
    or the buffer as it is. *)
Definition splice_or_keep (pool : list Resource) (merged_content : str)
           (requirement : Requirement) : str :=
  match find (fun r => Py.str_eqb (base_name r) (name requirement)) pool with
  | Some m =>
      match content m with
      | Some text =>
          firstn (fst (insert_location requirement) + 1) merged_content
            ++ text ++ skipn (snd (insert_location requirement)) merged_content
      | None => merged_content
      end
  | None => merged_content
  end.

(** The two results of discovery put together. *)
Definition join_found (a b : option (list Resource)) : option (list Resource) :=
  match a, b with
  | None, None => None
  | Some l, None => Some l
  | None, Some l => Some l
  | Some l1, Some l2 => Some (l1 ++ l2)
  end.

(** ** What a pattern matches

    [matches r t gs]: the pattern [r] matches exactly the text [t], closing
    the groups [gs] on the way.  The matcher [Re.run] searches for such a
    text at the head of its input. *)
Inductive matches : regex -> str -> list str -> Prop :=
| M_eps : matches Eps [] []
| M_chr c : matches (Chr c) [c] []
| M_cls p c : p c = true -> matches (Cls p) [c] []
| M_star p t : Forall (fun c => p c = true) t -> matches (Star p) t []
| M_plus p c t :
    p c = true -> Forall (fun c => p c = true) t -> matches (Plus p) (c :: t) []
| M_grp r t gs : matches r t gs -> matches (Grp r) t (gs ++ [t])
| M_cat r1 r2 t1 t2 gs1 gs2 :
    matches r1 t1 gs1 -> matches r2 t2 gs2 ->
    matches (Cat r1 r2) (t1 ++ t2) (gs1 ++ gs2).

(** Inversion of [matches] on a pattern given by its constructors. *)
Ltac invert_matches :=
  repeat match goal with
    | H : matches Eps _ _ |- _ => inversion H; subst; clear H
    | H : matches (Chr _) _ _ |- _ => inversion H; subst; clear H
    | H : matches (Cls _) _ _ |- _ => inversion H; subst; clear H
    | H : matches (Star _) _ _ |- _ => inversion H; subst; clear H
    | H : matches (Plus _) _ _ |- _ => inversion H; subst; clear H
    | H : matches (Grp _) _ _ |- _ => inversion H; subst; clear H
    | H : matches (Cat _ _) _ _ |- _ => inversion H; subst; clear H
    end.

(** * Properties *)

(** ** Strings *)

Lemma str_eqb_refl (a : str) : Py.str_eqb a a = true.
Proof.
  induction a as [|x a IH]; simpl; [reflexivity|].
  now rewrite Ascii.eqb_refl, IH.
Qed.

Lemma str_eqb_eq (a b : str) : Py.str_eqb a b = true <-> a = b.
Proof.
  split; [|intros ->; apply str_eqb_refl].
  revert b; induction a as [|x a IH]; intros [|y b]; simpl; try discriminate; auto.
  intros H. apply andb_true_iff in H as [Hx Hab].
  apply Ascii.eqb_eq in Hx. apply IH in Hab. now subst.
Qed.

Lemma str_eqb_neq (a b : str) : Py.str_eqb a b = false <-> a <> b.
Proof.
  split.
  - intros H E. apply str_eqb_eq in E. congruence.
  - intros H. destruct (Py.str_eqb a b) eqn:E; [|reflexivity].
    apply str_eqb_eq in E. contradiction.
Qed.

(** ** The matcher finds only what the pattern matches *)

Lemma greedy_sound {R} (p : ascii -> bool) (k : str -> option R) (s : str) (res : R) :
  Re.greedy p k s = Some res ->
  exists t s', s = t ++ s' /\ Forall (fun c => p c = true) t /\ k s' = Some res.
Proof.
  induction s as [|x s IH]; simpl; intros H.
  - exists [], []. auto.
  - destruct (p x) eqn:Hp.
    + destruct (Re.greedy p k s) as [r0|] eqn:Hg.
      * injection H as ->.
        destruct (IH eq_refl) as (t & s' & -> & Ht & Hk).
        exists (x :: t), s'. repeat split; auto.
      * exists [], (x :: s). auto.
    + exists [], (x :: s). auto.
Qed.

Lemma firstn_length_app (t s' : str) : firstn (length (t ++ s') - length s') (t ++ s') = t.
Proof.
  rewrite length_app.
  replace (length t + length s' - length s') with (length t + 0) by lia.
  rewrite firstn_app_2. simpl. apply app_nil_r.
Qed.

Lemma run_sound {R} (r : regex) :
  forall (s : str) (gs : list str) (k : str -> list str -> option R) (res : R),
    Re.run r s gs k = Some res ->
    exists t s' g, s = t ++ s' /\ matches r t g /\ k s' (gs ++ g) = Some res.
Proof.
  induction r as [|c|p|p|p|r1 IH1|r1 IH1 r2 IH2]; simpl; intros s gs k res H.
  - exists [], s, []. rewrite app_nil_r. repeat split; auto. constructor.
  - destruct s as [|x s]; [discriminate|].
    destruct (Ascii.eqb x c) eqn:E; [|discriminate].
    apply Ascii.eqb_eq in E. subst x.
    exists [c], s, []. rewrite app_nil_r. repeat split; auto. constructor.
  - destruct s as [|x s]; [discriminate|].
    destruct (p x) eqn:E; [|discriminate].
    exists [x], s, []. rewrite app_nil_r. repeat split; auto. now constructor.
  - apply greedy_sound in H as (t & s' & -> & Ht & Hk).
    exists t, s', []. rewrite app_nil_r. repeat split; auto. now constructor.
  - destruct s as [|x s]; [discriminate|].
    destruct (p x) eqn:E; [|discriminate].
    apply greedy_sound in H as (t & s' & -> & Ht & Hk).
    exists (x :: t), s', []. rewrite app_nil_r. repeat split; auto. now constructor.
  - apply IH1 in H as (t & s' & g & -> & Hm & Hk).
    rewrite firstn_length_app in Hk.
    exists t, s', (g ++ [t]). repeat split; auto.
    + now constructor.
    + now rewrite app_assoc.
  - apply IH1 in H as (t1 & s1 & g1 & -> & Hm1 & H).
    apply IH2 in H as (t2 & s2 & g2 & -> & Hm2 & Hk).
    exists (t1 ++ t2), s2, (g1 ++ g2). repeat split.
    + now rewrite app_assoc.
    + now constructor.
    + now rewrite app_assoc.
Qed.

Lemma match_at_sound (r : regex) (s : str) (n : nat) (gs : list str) :
  Re.match_at r s = Some (n, gs) ->
  exists t s', s = t ++ s' /\ matches r t gs /\ n = length t.
Proof.
  unfold Re.match_at. intros H.
  apply run_sound in H as (t & s' & g & -> & Hm & Hk).
  simpl in Hk. injection Hk as <- <-.
  exists t, s'. repeat split; auto.
  rewrite length_app. lia.
Qed.

(** Every match object of [finditer] comes from a match of the pattern at
    its start offset, and ends where that match ends. *)
Lemma finditer_from_sound (r : regex) (s : str) :
  forall pos skip mo,
    In mo (Re.finditer_from r pos skip s) ->
    exists k n, Re.m_start mo = pos + k /\ k <= length s /\
                Re.m_end mo = Re.m_start mo + n /\
                Re.match_at r (skipn k s) = Some (n, Re.m_groups mo).
Proof.
  assert (shift : forall pos s0 x skip mo,
             (In mo (Re.finditer_from r (S pos) skip s0) ->
              exists k n, Re.m_start mo = S pos + k /\ k <= length s0 /\
                          Re.m_end mo = Re.m_start mo + n /\
                          Re.match_at r (skipn k s0) = Some (n, Re.m_groups mo)) ->
             In mo (Re.finditer_from r (S pos) skip s0) ->
             exists k n, Re.m_start mo = pos + k /\ k <= length (x :: s0) /\
                         Re.m_end mo = Re.m_start mo + n /\
                         Re.match_at r (skipn k (x :: s0)) = Some (n, Re.m_groups mo)).
  { intros pos s0 x skip mo IH Hin.
    destruct (IH Hin) as (k & n & Hs & Hk & He & Hm).
    exists (S k), n. simpl. repeat split; auto; lia. }
  induction s as [|x s IH]; intros pos skip mo Hin.
  - destruct skip; simpl in Hin; [|contradiction].
    destruct (Re.match_at r []) as [[n gs]|] eqn:Hm; [|contradiction].
    destruct Hin as [<-|[]]. exists 0, n. simpl. repeat split; auto; lia.
  - destruct skip as [|skip]; simpl in Hin.
    + destruct (Re.match_at r (x :: s)) as [[n gs]|] eqn:Hm.
      * destruct Hin as [<-|Hin].
        -- exists 0, n. simpl. repeat split; auto; lia.
        -- eapply shift; eauto.
      * eapply shift; eauto.
    + eapply shift; eauto.
Qed.

Lemma finditer_sound (r : regex) (s : str) (mo : Re.match_object) :
  In mo (Re.finditer r s) ->
  exists before t after,
    s = before ++ t ++ after /\
    Re.m_start mo = length before /\
    Re.m_end mo = length before + length t /\
    matches r t (Re.m_groups mo).
Proof.
  intros H. apply finditer_from_sound in H as (k & n & Hs & Hk & He & Hm).
  apply match_at_sound in Hm as (t & s' & Hsplit & Hm & ->).
  exists (firstn k s), t, s'. simpl in Hs.
  rewrite <- Hsplit, firstn_skipn, length_firstn.
  repeat split; auto; lia.
Qed.

(** ** The two declaration patterns *)

(** A javascript declaration: white space, [//=], blanks, [require],
    blanks, an opening delimiter, the name, a closing delimiter, blanks.
    The groups are the opening delimiter and the name. *)
Lemma js_require_re_shape (t : str) (gs : list str) :
  matches js_require_re t gs ->
  exists ws b1 b2 o nm c b3,
    t = ws ++ "//=" ++ b1 ++ "require" ++ b2 ++ [o] ++ nm ++ [c] ++ b3 /\
    gs = [[o]; nm] /\
    Forall (fun x => Re.is_space x = true) ws /\
    b1 <> [] /\ Forall (fun x => Re.blank x = true) b1 /\
    b2 <> [] /\ Forall (fun x => Re.blank x = true) b2 /\
    Re.opening o = true /\
    nm <> [] /\ Forall (fun x => Re.non_space x = true) nm /\
    Re.closing c = true /\
    Forall (fun x => Re.blank x = true) b3.
Proof.
  intros H.
  cbv [js_require_re cat literal fold_right list_ascii_of_string] in H.
  invert_matches.
  match goal with
  | |- exists _ _ _ _ _ _ _,
        ?ws ++ _ ++ ?b1 ++ _ ++ ?b2 ++ [?o] ++ ?nm ++ [?c] ++ ?b3 ++ [] = _ /\ _ =>
      exists ws, b1, b2, o, nm, c, b3
  end.
  simpl. rewrite app_nil_r.
  repeat split; auto; try discriminate.
Qed.

(** A css declaration: [@import url("], the name, [")].  The groups are
    the opening quote and the name. *)
Lemma css_require_re_shape (t : str) (gs : list str) :
  matches css_require_re t gs ->
  exists nm,
    t = "@import url(" ++ dq ++ nm ++ dq ++ ")" /\
    gs = [dq; nm] /\
    nm <> [] /\ Forall (fun x => Re.non_space x = true) nm.
Proof.
  intros H.
  cbv [css_require_re cat literal fold_right list_ascii_of_string] in H.
  invert_matches.
  match goal with
  | Hn : Re.non_space ?n = true |- context [?n :: ?tn] => exists (n :: tn)
  end.
  simpl. repeat split; auto; try discriminate.
Qed.

(** ** The requirement scan *)

Lemma fold_add_requirement (ms : list Re.match_object) :
  forall acc,
    fold_left add_requirement ms acc =
    match ms with
    | [] => acc
    | _ => Some (match acc with None => [] | Some l => l end
                   ++ map requirement_of_match ms)
    end.
Proof.
  induction ms as [|mo ms IH]; intros acc; [reflexivity|].
  simpl. rewrite IH. unfold add_requirement.
  destruct ms; simpl; [reflexivity|].
  now rewrite <- app_assoc.
Qed.

(** The scan of a text of known type: nothing when [finditer] finds no
    match, otherwise one requirement per match, in order. *)
Lemma _set_requirements_scan (ft text : str) :
  Py.str_eqb ft "unknown" = false ->
  _set_requirements ft (Some text) =
  match Re.finditer (require_re ft) text with
  | [] => None
  | ms => Some (map requirement_of_match ms)
  end.
Proof.
  intros H. unfold _set_requirements. rewrite H, fold_add_requirement.
  now destruct (Re.finditer (require_re ft) text).
Qed.

Lemma _set_requirements_not_empty (ft : str) (c : option str) :
  _set_requirements ft c <> Some [].
Proof.
  unfold _set_requirements.
  destruct (Py.str_eqb ft "unknown"), c as [text|]; try discriminate.
  rewrite fold_add_requirement.
  destruct (Re.finditer (require_re ft) text); [discriminate|].
  simpl. intros H. injection H as H. discriminate.
Qed.

Lemma _set_requirements_none (ft : str) (c : option str) :
  _set_requirements ft c = None <->
  ft = "unknown" \/ c = None \/
  exists text, c = Some text /\ Re.finditer (require_re ft) text = [].
Proof.
  destruct (Py.str_eqb ft "unknown") eqn:E.
  - apply str_eqb_eq in E. subst ft. split; [auto | intros _; now destruct c].
  - destruct c as [text|].
    + rewrite _set_requirements_scan by assumption.
      apply str_eqb_neq in E.
      destruct (Re.finditer (require_re ft) text) eqn:F; split; intros H.
      * right. right. eauto.
      * reflexivity.
      * discriminate.
      * destruct H as [H|[H|(t' & H1 & H2)]]; try congruence.
    + split; auto. intros _. unfold _set_requirements. rewrite E. reflexivity.
Qed.

(** What a match of either declaration pattern looks like: it is not
    empty, and its second group, the name, is not empty. *)
Lemma require_re_match (ft t : str) (gs : list str) :
  matches (require_re ft) t gs -> t <> [] /\ nth 1 gs [] <> [].
Proof.
  unfold require_re. destruct (Py.str_eqb ft "javascript"); intros H.
  - apply js_require_re_shape in H
      as (ws & b1 & b2 & o & nm & c & b3 & -> & -> & _ & _ & _ & _ & _ & _ & Hnm & _).
    split; [|exact Hnm].
    intros E. apply app_eq_nil in E as [_ E]. discriminate.
  - apply css_require_re_shape in H as (nm & -> & -> & Hnm & _).
    split; [|exact Hnm]. discriminate.
Qed.

(** ** Construction of a resource *)

Lemma Resource_init_inv (fs : FileSystem) (p : str) (r : Resource) :
  Resource_init fs p = Ok r ->
  p <> [] /\
  path_to_file r = p /\
  file_type r = snd (_parse_extension_and_file_type p) /\
  extension r = fst (_parse_extension_and_file_type p) /\
  base_name r = _parse_base_name p /\
  _set_content fs p = Ok (content r) /\
  requirements r = _set_requirements (file_type r) (content r).
Proof.
  unfold Resource_init. destruct p as [|x p]; [discriminate|].
  destruct (_parse_extension_and_file_type (x :: p)) as [ext ft].
  destruct (_set_content fs (x :: p)) as [c|e]; simpl; [|discriminate].
  intros H. injection H as <-. simpl. repeat split; auto. discriminate.
Qed.

(** Construction succeeds on every path that is not empty and is not a
    directory: the content is that of the file, if there is one. *)
Lemma Resource_init_ok (fs : FileSystem) (p : str) :
  p <> [] -> fs_isdir fs p = false ->
  exists r, Resource_init fs p = Ok r /\ content r = fs_file fs p /\ path_to_file r = p.
Proof.
  intros Hp Hd. unfold Resource_init. destruct p as [|x p]; [contradiction|].
  destruct (_parse_extension_and_file_type (x :: p)) as [ext ft].
  unfold _set_content, os_path_exists, read_file.
  destruct (fs_file fs (x :: p)) as [data|]; simpl.
  - eexists. split; [reflexivity|]. auto.
  - rewrite Hd. simpl. eexists. split; [reflexivity|]. auto.
Qed.

Lemma file1_resource_init :
  Resource_init merge_test_fs "/tmp/env/dir1/file1.js" = Ok file1_resource.
Proof. vm_compute. reflexivity. Qed.

Lemma file2_resource_init :
  Resource_init merge_test_fs "/tmp/env/dir2/file2.js" = Ok file2_resource.
Proof. vm_compute. reflexivity. Qed.

Lemma app_resource_init : Resource_init css_only_fs "/proj/app.js" = Ok app_resource.
Proof. vm_compute. reflexivity. Qed.

(** ** The requirement scan: examples *)

(** C4: the scan of the javascript text of the requirement test of the
    repository yields exactly two requirements, in order: [jquery], global,
    at [(0, 20)], then [openlayers], local, at [(34, 58)]. *)
Theorem scan_javascript_test_content :
  _set_requirements "javascript" (Some test_js_content)
  = Some [{| name := "jquery"; type := "global"; insert_location := (0, 20) |};
          {| name := "openlayers"; type := "local"; insert_location := (34, 58) |}].
Proof. vm_compute. reflexivity. Qed.

Example scan_css_test_content :
  _set_requirements "css" (Some test_css_content)
  = Some [{| name := "something.css"; type := "local"; insert_location := (22, 50) |}].
Proof. vm_compute. reflexivity. Qed.

(** ** The requirements of a constructed resource *)

(** The requirements that are present are those of the matches of the
    scan, in order. *)
Lemma present_requirements_scan (ft : str) (c : option str) (reqs : list Requirement) :
  _set_requirements ft c = Some reqs ->
  exists text, c = Some text /\
    reqs = map requirement_of_match (Re.finditer (require_re ft) text).
Proof.
  intros Hs.
  destruct (Py.str_eqb ft "unknown") eqn:E.
  - unfold _set_requirements in Hs. rewrite E in Hs. discriminate.
  - destruct c as [text|].
    + exists text. split; [reflexivity|].
      rewrite _set_requirements_scan in Hs by assumption.
      destruct (Re.finditer (require_re ft) text); [discriminate|].
      now injection Hs as <-.
    + unfold _set_requirements in Hs. rewrite E in Hs. discriminate.
Qed.

(** C6: the requirements of a constructed resource are absent or a list
    that is not empty, never the empty list; they are absent exactly when
    the file type is unknown, the content is absent, or the scan of the
    content finds no match; otherwise they are the requirements of the
    matches, in the order of the scan. *)
Theorem requirements_absent_or_not_empty (fs : FileSystem) (p : str) (r : Resource) :
  Resource_init fs p = Ok r ->
  requirements r <> Some [] /\
  (requirements r = None \/ exists q reqs, requirements r = Some (q :: reqs)) /\
  (requirements r = None <->
   file_type r = "unknown" \/ content r = None \/
   exists text, content r = Some text /\
                Re.finditer (require_re (file_type r)) text = []) /\
  (forall reqs, requirements r = Some reqs ->
     exists text, content r = Some text /\
       reqs = map requirement_of_match (Re.finditer (require_re (file_type r)) text)).
Proof.
  intros H. apply Resource_init_inv in H as (_ & _ & _ & _ & _ & _ & Hreq).
  rewrite Hreq. repeat split.
  - apply _set_requirements_not_empty.
  - pose proof (_set_requirements_not_empty (file_type r) (content r)) as Hne.
    destruct (_set_requirements (file_type r) (content r)) as [[|q reqs]|]; eauto.
    contradiction.
  - apply _set_requirements_none.
  - apply _set_requirements_none.
  - apply present_requirements_scan.
Qed.

Lemma requirements_absent_or_not_empty_witness :
  requirements file1_resource <> Some [] /\
  (requirements file1_resource = None \/
   exists q reqs, requirements file1_resource = Some (q :: reqs)) /\
  (requirements file1_resource = None <->
   file_type file1_resource = "unknown" \/ content file1_resource = None \/
   exists text, content file1_resource = Some text /\
                Re.finditer (require_re (file_type file1_resource)) text = []) /\
  (forall reqs, requirements file1_resource = Some reqs ->
     exists text, content file1_resource = Some text /\
       reqs = map requirement_of_match
                  (Re.finditer (require_re (file_type file1_resource)) text)).
Proof.
  apply (requirements_absent_or_not_empty merge_test_fs "/tmp/env/dir1/file1.js").
  vm_compute. reflexivity.
Defined.

(** C9: every requirement of a constructed resource has a name that is not
    empty and a location [(start, end)] with [start < end] and [end] at
    most the length of the content. *)
Theorem requirement_name_and_span (fs : FileSystem) (p : str) (r : Resource)
        (reqs : list Requirement) (q : Requirement) :
  Resource_init fs p = Ok r ->
  requirements r = Some reqs ->
  In q reqs ->
  exists text,
    content r = Some text /\
    name q <> [] /\
    fst (insert_location q) < snd (insert_location q) /\
    snd (insert_location q) <= length text.
Proof.
  intros Hinit Hreqs Hq.
  apply Resource_init_inv in Hinit as (_ & _ & _ & _ & _ & _ & Hreq).
  rewrite Hreq in Hreqs.
  apply present_requirements_scan in Hreqs as (text & Hc & ->).
  exists text. split; [assumption|].
  apply in_map_iff in Hq as (mo & <- & Hmo).
  apply finditer_sound in Hmo as (before & t & after & -> & Hs & He & Hm).
  apply require_re_match in Hm as [Ht Hname].
  simpl. rewrite Hs, He, !length_app.
  repeat split; [assumption| |lia].
  destruct t; [contradiction|simpl; lia].
Qed.

Lemma requirement_name_and_span_witness :
  exists text,
    content file1_resource = Some text /\
    name {| name := "file2"; type := "global"; insert_location := (17, 37) |} <> [] /\
    17 < 37 /\ 37 <= length text.
Proof.
  apply (requirement_name_and_span merge_test_fs "/tmp/env/dir1/file1.js" file1_resource
           [{| name := "file2"; type := "global"; insert_location := (17, 37) |}]).
  - vm_compute. reflexivity.
  - reflexivity.
  - simpl. left. reflexivity.
Defined.

(** ** Discovery *)

Section Discovery.

Variable fs : FileSystem.
Variable ft : str.

Lemma constructed_app (ps1 ps2 : list str) (rs1 rs2 : list Resource) :
  constructed fs ps1 rs1 -> constructed fs ps2 rs2 ->
  constructed fs (ps1 ++ ps2) (rs1 ++ rs2).
Proof. apply Forall2_app. Qed.

(** The resources constructed for a list of paths have these paths. *)
Lemma constructed_paths (ps : list str) (rs : list Resource) :
  constructed fs ps rs -> map path_to_file rs = ps.
Proof.
  induction 1 as [|p r ps rs Hr _ IH]; simpl; [reflexivity|].
  apply Resource_init_inv in Hr as (_ & -> & _). now rewrite IH.
Qed.

(** The body of the loop over the file names of a directory. *)
Let keep_of_type (dir_path : str) (resources : list Resource) (file_name : str)
  : result (list Resource) :=
  resource <- Resource_init fs (OsPath.join dir_path file_name) ;;
  Ok (if Py.str_eqb (file_type resource) ft then resources ++ [resource] else resources).

(** The loop over the file names of one directory appends the resources
    of the files of the requested type. *)
Lemma files_loop (dir_path : str) (file_names : list str) :
  Forall (regular fs) (map (OsPath.join dir_path) file_names) ->
  exists found,
    constructed fs (filter (has_type ft) (map (OsPath.join dir_path) file_names)) found /\
    forall resources,
      for_each file_names (keep_of_type dir_path) resources = Ok (resources ++ found).
Proof.
  induction file_names as [|f fns IH]; simpl; intros Hreg.
  - exists []. split; [constructor|]. intros. now rewrite app_nil_r.
  - inversion Hreg as [|? ? [Hne Hnd] Hrest]; subst.
    destruct (IH Hrest) as (found & Hfound & Hloop).
    destruct (Resource_init_ok fs _ Hne Hnd) as (r & Hr & _).
    pose proof (Resource_init_inv _ _ _ Hr) as (_ & _ & Hft & _).
    unfold has_type at 1, file_type_of, keep_of_type at 1. rewrite <- Hft, Hr.
    destruct (Py.str_eqb (file_type r) ft) eqn:E.
    + exists (r :: found). split; [constructor; assumption|].
      intros resources. simpl. rewrite E, Hloop, <- app_assoc. reflexivity.
    + exists found. split; [assumption|].
      intros resources. simpl. rewrite E. apply Hloop.
Qed.

(** The loop over the directories of a walk. *)
Lemma walk_loop (walk : list (str * list str * list str)) :
  Forall (regular fs)
         (flat_map (fun '(dir_path, dir_names, file_names) =>
                      map (OsPath.join dir_path) file_names) walk) ->
  exists found,
    constructed fs
      (filter (has_type ft)
         (flat_map (fun '(dir_path, dir_names, file_names) =>
                      map (OsPath.join dir_path) file_names) walk)) found /\
    forall resources,
      for_each walk
        (fun resources '(dir_path, dir_names, file_names) =>
           for_each file_names (keep_of_type dir_path) resources)
        resources
      = Ok (resources ++ found).
Proof.
  induction walk as [|[[d ds] fns] walk IH]; simpl; intros Hreg.
  - exists []. split; [constructor|]. intros. now rewrite app_nil_r.
  - apply Forall_app in Hreg as [Hd Hrest].
    destruct (files_loop d fns Hd) as (found1 & Hc1 & Hloop1).
    destruct (IH Hrest) as (found2 & Hc2 & Hloop2).
    exists (found1 ++ found2). split.
    + rewrite filter_app. now apply constructed_app.
    + intros resources. rewrite Hloop1. simpl. rewrite Hloop2, <- app_assoc. reflexivity.
Qed.

(** [_find_all_of_type_in_path]: the resources of the listed files of the
    requested type, in walk order. *)
Lemma _find_all_of_type_in_path_ok (root : str) :
  Forall (regular fs) (listed_files fs root) ->
  exists found,
    constructed fs (filter (has_type ft) (listed_files fs root)) found /\
    _find_all_of_type_in_path fs ft root = Ok found.
Proof.
  intros Hreg. destruct (walk_loop (fs_walk fs root) Hreg) as (found & Hc & Hloop).
  exists found. split; [assumption|]. apply (Hloop []).
Qed.

(** The loop over the search roots. *)
Lemma roots_loop (roots : list str) :
  Forall (regular fs) (flat_map (listed_files fs) roots) ->
  exists found,
    constructed fs (filter (has_type ft) (flat_map (listed_files fs) roots)) found /\
    forall resources,
      for_each roots
        (fun resources path =>
           found <- _find_all_of_type_in_path fs ft path ;;
           Ok (resources ++ found))
        resources
      = Ok (resources ++ found).
Proof.
  induction roots as [|root roots IH]; simpl; intros Hreg.
  - exists []. split; [constructor|]. intros. now rewrite app_nil_r.
  - apply Forall_app in Hreg as [Hroot Hrest].
    destruct (_find_all_of_type_in_path_ok root Hroot) as (found1 & Hc1 & Hfind).
    destruct (IH Hrest) as (found2 & Hc2 & Hloop).
    exists (found1 ++ found2). split.
    + rewrite filter_app. now apply constructed_app.
    + intros resources. rewrite Hfind. simpl. rewrite Hloop, <- app_assoc. reflexivity.
Qed.

End Discovery.

(** C7: when the names that [os.walk] lists as files are regular,
    discovery constructs the resources of the listed files of the requested
    type, root after root and in walk order below each root; it returns
    them when there is at least one, and [None] exactly when no listed file
    has the requested type. *)
Theorem find_all_of_type_in_environment_spec
        (fs : FileSystem) (ft : str) (environment : Environment) :
  Forall (regular fs) (candidates fs environment) ->
  exists pool,
    constructed fs (filter (has_type ft) (candidates fs environment)) pool /\
    map path_to_file pool = filter (has_type ft) (candidates fs environment) /\
    find_all_of_type_in_environment fs ft environment
    = Ok (match pool with [] => None | _ => Some pool end) /\
    (find_all_of_type_in_environment fs ft environment = Ok None <->
     forall p, In p (candidates fs environment) -> file_type_of p <> ft).
Proof.
  intros Hreg. unfold candidates in *.
  destruct (roots_loop fs ft (paths environment) Hreg) as (pool & Hc & Hloop).
  exists pool. split; [assumption|].
  split; [now apply (constructed_paths fs)|].
  assert (Hfind : find_all_of_type_in_environment fs ft environment
                  = Ok (match pool with [] => None | _ => Some pool end)).
  { unfold find_all_of_type_in_environment. rewrite Hloop. simpl.
    now destruct pool. }
  split; [assumption|].
  rewrite Hfind. split.
  - intros Hnone p Hp Hty.
    assert (Hin : In p (filter (has_type ft) (flat_map (listed_files fs) (paths environment)))).
    { apply filter_In. split; [assumption|]. unfold has_type. now apply str_eqb_eq. }
    destruct pool; [|discriminate].
    inversion Hc as [E|]. rewrite <- E in Hin. contradiction.
  - intros Hno.
    destruct (filter (has_type ft) (flat_map (listed_files fs) (paths environment)))
      as [|p ps] eqn:E.
    + inversion Hc. reflexivity.
    + assert (Hin : In p (filter (has_type ft)
                            (flat_map (listed_files fs) (paths environment)))).
      { rewrite E. now left. }
      apply filter_In in Hin as [Hin Hty]. unfold has_type in Hty.
      apply str_eqb_eq in Hty. exfalso. now apply (Hno p).
Qed.

Lemma find_all_of_type_in_environment_spec_witness :
  exists pool,
    constructed merge_test_fs
      (filter (has_type "javascript") (candidates merge_test_fs merge_test_env)) pool /\
    map path_to_file pool
    = filter (has_type "javascript") (candidates merge_test_fs merge_test_env) /\
    find_all_of_type_in_environment merge_test_fs "javascript" merge_test_env
    = Ok (match pool with [] => None | _ => Some pool end) /\
    (find_all_of_type_in_environment merge_test_fs "javascript" merge_test_env = Ok None <->
     forall p, In p (candidates merge_test_fs merge_test_env) ->
               file_type_of p <> "javascript").
Proof.
  apply (find_all_of_type_in_environment_spec merge_test_fs "javascript" merge_test_env).
  vm_compute. repeat constructor; discriminate.
Defined.

Lemma merge_test_pool :
  find_all_of_type_in_environment merge_test_fs "javascript" merge_test_env
  = Ok (Some [file1_resource; file2_resource]).
Proof. vm_compute. reflexivity. Qed.

Lemma css_only_pool :
  find_all_of_type_in_environment css_only_fs "javascript" css_only_env = Ok None.
Proof. vm_compute. reflexivity. Qed.

(** ** The merge *)

Lemma firstn_succ_nth_error {A} (l : list A) (n : nat) (x : A) :
  nth_error l n = Some x -> firstn (n + 1) l = firstn n l ++ [x].
Proof.
  revert l; induction n as [|n IH]; intros [|y l]; simpl; try discriminate.
  - now intros [= ->].
  - intros H. now rewrite (IH _ H).
Qed.

(** The inner loop stops at the first resource that has the name of the
    requirement: the working buffer keeps its first [start + 1] characters
    and its characters from [end] on, with the content of that resource in
    between. *)
Lemma splice_first_match_found (requirement : Requirement) (merged_content : str)
      (pre : list Resource) (m : Resource) (post : list Resource) (text : str) :
  Forall (fun r => base_name r <> name requirement) pre ->
  base_name m = name requirement ->
  content m = Some text ->
  splice_first_match requirement merged_content (pre ++ m :: post)
  = Ok (firstn (fst (insert_location requirement) + 1) merged_content
          ++ text ++ skipn (snd (insert_location requirement)) merged_content).
Proof.
  intros Hpre Hm Hc. induction Hpre as [|r pre Hr Hpre IH]; simpl.
  - apply str_eqb_eq in Hm. rewrite Hm, Hc. reflexivity.
  - apply str_eqb_neq in Hr. rewrite Hr. exact IH.
Qed.

(** Without such a resource in the pool the inner loop leaves the working
    buffer as it is. *)
Lemma splice_first_match_none (requirement : Requirement) (merged_content : str)
      (resources : list Resource) :
  Forall (fun r => base_name r <> name requirement) resources ->
  splice_first_match requirement merged_content resources = Ok merged_content.
Proof.
  intros H. induction H as [|r rs Hr Hrs IH]; simpl; [reflexivity|].
  apply str_eqb_neq in Hr. now rewrite Hr.
Qed.

(** With no resource of the type in the environment, discovery returns
    [None], and the loop over it raises. *)
Lemma merge_requirement_empty_pool (fs : FileSystem) (ft : str) (environment : Environment)
      (merged_content : str) (requirement : Requirement) :
  find_all_of_type_in_environment fs ft environment = Ok None ->
  merge_requirement fs ft environment merged_content requirement = Raise TypeError.
Proof. intros H. unfold merge_requirement. now rewrite H. Qed.

(** C1, as the code has it: when a resource of the pool has the name of
    the requirement and the working buffer holds a white-space character at
    the offset [start], the merge keeps the buffer up to and including that
    character, puts the content of the first such resource of the pool
    after it, and continues with the buffer from the offset [end] on. *)
Theorem merge_requirement_first_match
        (fs : FileSystem) (ft : str) (environment : Environment)
        (merged_content : str) (requirement : Requirement)
        (pre : list Resource) (m : Resource) (post : list Resource)
        (text : str) (ch : ascii) :
  find_all_of_type_in_environment fs ft environment = Ok (Some (pre ++ m :: post)) ->
  Forall (fun r => base_name r <> name requirement) pre ->
  base_name m = name requirement ->
  content m = Some text ->
  nth_error merged_content (fst (insert_location requirement)) = Some ch ->
  Re.is_space ch = true ->
  merge_requirement fs ft environment merged_content requirement
  = Ok (firstn (fst (insert_location requirement)) merged_content
          ++ [ch] ++ text
          ++ skipn (snd (insert_location requirement)) merged_content).
Proof.
  intros Hpool Hpre Hm Hc Hch _.
  unfold merge_requirement. rewrite Hpool. simpl.
  rewrite (splice_first_match_found _ _ _ _ post _ Hpre Hm Hc).
  rewrite (firstn_succ_nth_error _ _ _ Hch), <- app_assoc. reflexivity.
Qed.

Lemma merge_requirement_first_match_witness :
  merge_requirement merge_test_fs "javascript" merge_test_env file1_content
    {| name := "file2"; type := "global"; insert_location := (17, 37) |}
  = Ok (firstn 17 file1_content ++ nl ++ file2_content ++ skipn 37 file1_content).
Proof.
  apply (merge_requirement_first_match merge_test_fs "javascript" merge_test_env
           file1_content {| name := "file2"; type := "global"; insert_location := (17, 37) |}
           [file1_resource] file2_resource [] file2_content "010"%char).
  - vm_compute. reflexivity.
  - repeat constructor. simpl. discriminate.
  - reflexivity.
  - reflexivity.
  - reflexivity.
  - reflexivity.
Defined.

(** C1, as the specification words it, fails on the merge test of the
    repository: the line feed that starts the span of the declaration of
    [file2] stays in the output. *)
Lemma replaces_whole_span_fails :
  ~ replaces_whole_span merge_test_fs "javascript" merge_test_env file1_content
      {| name := "file2"; type := "global"; insert_location := (17, 37) |}.
Proof.
  intros H.
  specialize (H [file1_resource] file2_resource [] file2_content).
  assert (E : merge_requirement merge_test_fs "javascript" merge_test_env file1_content
                {| name := "file2"; type := "global"; insert_location := (17, 37) |}
              = Ok ("// This is file 1" ++ nl ++ file2_content)).
  { vm_compute. reflexivity. }
  rewrite E in H.
  assert (F : Ok ("// This is file 1" ++ nl ++ file2_content)
              = Ok (replace_span file1_content (17, 37) file2_content)).
  { apply H.
    - vm_compute. reflexivity.
    - repeat constructor. simpl. discriminate.
    - reflexivity.
    - reflexivity. }
  vm_compute in F. discriminate.
Qed.

(** The inner loop in one equation: the first resource of the pool that
    has the name of the requirement decides. *)
Lemma splice_first_match_find (requirement : Requirement) (merged_content : str)
      (resources : list Resource) :
  splice_first_match requirement merged_content resources =
  match find (fun r => Py.str_eqb (base_name r) (name requirement)) resources with
  | None => Ok merged_content
  | Some m =>
      match content m with
      | Some text =>
          Ok (firstn (fst (insert_location requirement) + 1) merged_content
                ++ text ++ skipn (snd (insert_location requirement)) merged_content)
      | None => Raise TypeError
      end
  end.
Proof.
  induction resources as [|r rs IH]; simpl; [reflexivity|].
  destruct (Py.str_eqb (base_name r) (name requirement)); [reflexivity|exact IH].
Qed.

(** A requirement that no resource of a pool with at least one resource
    answers leaves the working buffer as it is. *)
Lemma merge_requirement_no_match (fs : FileSystem) (ft : str) (environment : Environment)
      (merged_content : str) (requirement : Requirement) (pool : list Resource) :
  find_all_of_type_in_environment fs ft environment = Ok (Some pool) ->
  Forall (fun r => base_name r <> name requirement) pool ->
  merge_requirement fs ft environment merged_content requirement = Ok merged_content.
Proof.
  intros Hpool Hno. unfold merge_requirement. rewrite Hpool. simpl.
  now apply splice_first_match_none.
Qed.

(** ** The output path *)

Lemma isdir_exists (fs : FileSystem) (p : str) :
  fs_isdir fs p = true -> os_path_exists fs p = true.
Proof. intros H. unfold os_path_exists. now destruct (fs_file fs p). Qed.

(** What the directory step made, when it did not raise. *)
Lemma create_directory_ok (fs : FileSystem) (out : str) (made : list io) :
  create_directory fs out = Ok made -> made = ensure_directory fs out.
Proof.
  unfold create_directory, ensure_directory, makedirs.
  destruct (_ && _); [|congruence].
  destruct (can_make _ fs _); congruence.
Qed.

(** For an output path that can be written, the directory step does not
    raise and the output file can be opened after it. *)
Lemma can_write_create (fs : FileSystem) (out : str) :
  can_write fs out = true -> create_directory fs out = Ok (ensure_directory fs out).
Proof.
  unfold can_write, create_directory, ensure_directory, makedirs, OsPath.dirname.
  destruct (OsPath.split out) as [head tail]. cbn [fst].
  intros H. apply andb_prop in H as [_ H].
  destruct (Py.str_eqb head []); [reflexivity|].
  destruct (fs_isdir fs head) eqn:Hd.
  - now rewrite (isdir_exists _ _ Hd).
  - cbn [orb] in H. apply andb_prop in H as [He Hm].
    rewrite He, Hm. reflexivity.
Qed.

Lemma can_write_open (fs : FileSystem) (out : str) :
  can_write fs out = true -> open_for_writing fs (ensure_directory fs out) out = Ok tt.
Proof.
  unfold can_write, open_for_writing, ensure_directory, directory_after, OsPath.dirname.
  destruct (OsPath.split out) as [head tail]. cbn [fst].
  intros H. apply andb_prop in H as [H1 H]. rewrite H1.
  destruct (Py.str_eqb head []) eqn:Hh; [reflexivity|].
  destruct (fs_isdir fs head) eqn:Hd; [reflexivity|].
  cbn [orb] in H. apply andb_prop in H as [He _]. rewrite He.
  cbn. now rewrite str_eqb_refl.
Qed.

Lemma can_write_write (fs : FileSystem) (out data : str) :
  can_write fs out = true ->
  write_file fs (ensure_directory fs out) out data = Ok [WriteFile out data].
Proof. intros H. unfold write_file. now rewrite (can_write_open _ _ H). Qed.

(** A write that does not raise writes the data to the path. *)
Lemma write_file_ok (fs : FileSystem) (made : list io) (p data : str) (actions : list io) :
  write_file fs made p data = Ok actions -> actions = [WriteFile p data].
Proof.
  unfold write_file. destruct (open_for_writing fs made p); cbn; congruence.
Qed.

(** An output path that cannot be written makes the directory step or the
    opening of the output file raise. *)
Lemma unwritable_open (fs : FileSystem) (out : str) (made : list io) :
  unwritable fs out = true ->
  create_directory fs out = Ok made ->
  open_for_writing fs made out = Raise IOError.
Proof.
  intros Hu Hmade. apply create_directory_ok in Hmade. subst made.
  revert Hu.
  unfold unwritable, open_for_writing, ensure_directory, directory_after, OsPath.dirname.
  destruct (OsPath.split out) as [head tail]. cbn [fst].
  destruct (file_name tail); [|reflexivity].
  destruct (fs_isdir fs out); [reflexivity|].
  destruct (Py.str_eqb head []); [discriminate|].
  destruct (os_path_exists fs head); [|discriminate].
  destruct (fs_isdir fs head); [discriminate|]. reflexivity.
Qed.

(** The loop of the merge when the pool has at least one resource and
    none has the name of any requirement: the working buffer stays as it
    is. *)
Lemma merge_loop_unresolved (fs : FileSystem) (ft : str) (environment : Environment)
      (text : str) (reqs : list Requirement) (pool : list Resource) :
  find_all_of_type_in_environment fs ft environment = Ok (Some pool) ->
  Forall (fun q' => Forall (fun r => base_name r <> name q') pool) reqs ->
  for_each reqs (merge_requirement fs ft environment) text = Ok text.
Proof.
  intros Hpool Hno. induction Hno as [|q' reqs' Hq' _ IH]; [reflexivity|].
  cbn [for_each]. rewrite (merge_requirement_no_match _ _ _ _ _ _ Hpool Hq').
  exact IH.
Qed.

(** When the pool has at least one resource and none has the name of any
    requirement, the merge writes the content as it is, to an output path
    that can be written: every declaration stays in place. *)
Lemma merge_unresolved_keeps_content (fs : FileSystem) (self : Resource)
      (environment : Environment) (out text : str) (q : Requirement)
      (reqs : list Requirement) (pool : list Resource) :
  content self = Some text ->
  requirements self = Some (q :: reqs) ->
  find_all_of_type_in_environment fs (file_type self) environment = Ok (Some pool) ->
  Forall (fun q' => Forall (fun r => base_name r <> name q') pool) (q :: reqs) ->
  can_write fs out = true ->
  merge_requirements_from_environemnt fs self environment out
  = Ok (ensure_directory fs out ++ [WriteFile out text]).
Proof.
  intros Hc Hr Hpool Hno Hout. unfold merge_requirements_from_environemnt.
  rewrite Hc, Hr, (can_write_create _ _ Hout). cbv [bind].
  rewrite (merge_loop_unresolved _ _ _ _ _ _ Hpool Hno).
  now rewrite (can_write_write _ _ _ Hout).
Qed.

(** The files after the actions of a merge that ends with a write. *)
Lemma run_io_write (fs : FileSystem) (out data : str) (files : str -> option str) :
  run_io (ensure_directory fs out ++ [WriteFile out data]) files out = Some data.
Proof.
  unfold run_io. rewrite fold_left_app. simpl. now rewrite str_eqb_refl.
Qed.

(** A resource with requirements cannot be merged against an environment
    without any resource of its type: the loop raises once the output
    directory is there. *)
Lemma merge_empty_pool_raises (fs : FileSystem) (self : Resource) (environment : Environment)
      (out text : str) (q : Requirement) (reqs : list Requirement) (made : list io) :
  content self = Some text ->
  requirements self = Some (q :: reqs) ->
  find_all_of_type_in_environment fs (file_type self) environment = Ok None ->
  create_directory fs out = Ok made ->
  merge_requirements_from_environemnt fs self environment out = Raise TypeError.
Proof.
  intros Hc Hr Hpool Hmade. unfold merge_requirements_from_environemnt.
  rewrite Hc, Hr, Hmade. simpl.
  now rewrite (merge_requirement_empty_pool _ _ _ _ _ Hpool).
Qed.

(** C2: a javascript resource whose content is the comment line of file 1
    and the declaration that requires [file2], merged against an
    environment in which the first resource named [file2] holds the comment
    line of file 2, to an output path that can be written (it names a
    file, not a directory, in a directory that exists or can be made),
    writes the comment line of file 1, a line feed and the content of
    file 2; no declaration is left in what is written. *)
Theorem merge_requirements_in_global_path
        (fs : FileSystem) (environment : Environment) (path_1 output_file_path : str)
        (self : Resource) (pool : list Resource) (file2 : Resource) :
  Resource_init fs path_1 = Ok self ->
  file_type self = "javascript" ->
  content self = Some file1_content ->
  find_all_of_type_in_environment fs "javascript" environment = Ok (Some pool) ->
  find (fun r => Py.str_eqb (base_name r) "file2") pool = Some file2 ->
  content file2 = Some file2_content ->
  can_write fs output_file_path = true ->
  let output := "// This is file 1" ++ nl ++ file2_content in
  let actions := ensure_directory fs output_file_path ++ [WriteFile output_file_path output] in
  merge_requirements_from_environemnt fs self environment output_file_path = Ok actions /\
  run_io actions (fs_file fs) output_file_path = Some output /\
  Re.finditer js_require_re output = [].
Proof.
  intros Hinit Hft Hc Hpool Hfind Hc2 Hout output actions.
  apply Resource_init_inv in Hinit as (_ & _ & _ & _ & _ & _ & Hreq).
  rewrite Hft, Hc in Hreq.
  assert (Hscan : _set_requirements "javascript" (Some file1_content)
                  = Some [{| name := "file2"; type := "global";
                             insert_location := (17, 37) |}]).
  { vm_compute. reflexivity. }
  rewrite Hscan in Hreq.
  split; [|split].
  - unfold merge_requirements_from_environemnt.
    rewrite Hc, Hreq, Hft, (can_write_create _ _ Hout).
    cbv [bind for_each merge_requirement].
    rewrite Hpool, splice_first_match_find. cbn [name]. rewrite Hfind, Hc2.
    now rewrite (can_write_write _ _ _ Hout).
  - apply run_io_write.
  - vm_compute. reflexivity.
Qed.

Lemma merge_requirements_in_global_path_witness :
  let output := "// This is file 1" ++ nl ++ file2_content in
  let actions :=
    ensure_directory merge_test_fs "/tmp/env/output/result.js"
      ++ [WriteFile "/tmp/env/output/result.js" output] in
  merge_requirements_from_environemnt merge_test_fs file1_resource merge_test_env
    "/tmp/env/output/result.js" = Ok actions /\
  run_io actions (fs_file merge_test_fs) "/tmp/env/output/result.js" = Some output /\
  Re.finditer js_require_re output = [].
Proof.
  apply (merge_requirements_in_global_path merge_test_fs merge_test_env
           "/tmp/env/dir1/file1.js" "/tmp/env/output/result.js" file1_resource
           [file1_resource; file2_resource] file2_resource).
  - vm_compute. reflexivity.
  - reflexivity.
  - reflexivity.
  - vm_compute. reflexivity.
  - reflexivity.
  - reflexivity.
  - vm_compute. reflexivity.
Defined.

(** The same scenario with each of the two directories as a search root. *)
Example merge_requirements_two_roots :
  merge_requirements_from_environemnt merge_test_fs file1_resource two_roots_env "result.js"
  = Ok [WriteFile "result.js" ("// This is file 1" ++ nl ++ file2_content)].
Proof. vm_compute. reflexivity. Qed.

(** C3, at an input on which the code departs from it: [/proj/app.js]
    requires [jquery], the search root [/proj/lib] holds no javascript
    file, discovery returns [None], and the merge raises [TypeError]
    where the requirement should have been left in place. *)
Theorem merge_unresolved_without_pool_raises :
  Resource_init css_only_fs "/proj/app.js" = Ok app_resource /\
  find_all_of_type_in_environment css_only_fs (file_type app_resource) css_only_env = Ok None /\
  merge_requirements_from_environemnt css_only_fs app_resource css_only_env "/proj/out/app.js"
  = Raise TypeError.
Proof. repeat split; vm_compute; reflexivity. Qed.

(** The merge of a resource without requirements copies the bytes that the
    source path holds when the merge runs, to an output path that can be
    written and is not the source file. *)
Lemma merge_copies (fs : FileSystem) (self : Resource) (environment : Environment)
      (out text data : str) :
  content self = Some text ->
  requirements self = None ->
  fs_file fs (path_to_file self) = Some data ->
  samefile fs (path_to_file self) out = false ->
  can_write fs out = true ->
  merge_requirements_from_environemnt fs self environment out
  = Ok (ensure_directory fs out ++ [WriteFile out data]).
Proof.
  intros Hc Hr Hsrc Hne Hout. unfold merge_requirements_from_environemnt.
  rewrite Hc, Hr, (can_write_create _ _ Hout). cbn [bind]. unfold copyfile, read_file.
  rewrite Hne, Hsrc. cbn [bind]. now rewrite (can_write_write _ _ _ Hout).
Qed.

(** A resource without content, constructed for a path without a file,
    cannot be merged. *)
Lemma merge_without_content_raises (fs : FileSystem) (self : Resource)
      (environment : Environment) (out : str) :
  content self = None ->
  merge_requirements_from_environemnt fs self environment out = Raise TypeError.
Proof. intros H. unfold merge_requirements_from_environemnt. now rewrite H. Qed.

(** [shutil.copyfile] refuses the source file as output path, once the
    directory step is over. *)
Lemma merge_onto_itself_raises (fs : FileSystem) (self : Resource)
      (environment : Environment) (out text : str) (made : list io) :
  content self = Some text ->
  requirements self = None ->
  create_directory fs out = Ok made ->
  samefile fs (path_to_file self) out = true ->
  merge_requirements_from_environemnt fs self environment out = Raise ShutilError.
Proof.
  intros Hc Hr Hmade Hsame. unfold merge_requirements_from_environemnt, copyfile.
  rewrite Hc, Hr, Hmade. cbn [bind]. now rewrite Hsame.
Qed.

(** Where a regular file lies, no directory is to be made. *)
Lemma create_directory_of_file (fs : FileSystem) (p data : str) :
  fs_file fs p = Some data -> create_directory fs p = Ok [].
Proof.
  intros H. unfold create_directory.
  assert (Hd : Py.str_eqb (OsPath.dirname p) [] || fs_isdir fs (OsPath.dirname p) = true).
  { apply fs_file_in_directory. congruence. }
  destruct (Py.str_eqb (OsPath.dirname p) []); [reflexivity|].
  cbn [orb] in Hd. apply isdir_exists in Hd. now rewrite Hd.
Qed.

(** A regular file is the same file as itself. *)
Lemma samefile_refl (fs : FileSystem) (p data : str) :
  fs_file fs p = Some data -> samefile fs p p = true.
Proof.
  intros H. unfold samefile, os_path_exists. rewrite H. cbn. now rewrite str_eqb_refl.
Qed.

(** C8 as it is worded fails on resources without requirements of the
    merge layout: for the path of a file that is not there the merge
    raises [TypeError], onto the path of the source it raises
    [shutil.Error], and onto a directory it raises [IOError]. *)
Lemma copies_byte_for_byte_fails :
  (Resource_init merge_test_fs "/tmp/env/dir2/file3.js" = Ok file3_resource /\
   requirements file3_resource = None /\
   merge_requirements_from_environemnt merge_test_fs file3_resource merge_test_env
     "/tmp/env/output/file3.js" = Raise TypeError /\
   ~ copies_byte_for_byte merge_test_fs file3_resource merge_test_env
       "/tmp/env/output/file3.js") /\
  (Resource_init merge_test_fs "/tmp/env/dir2/file2.js" = Ok file2_resource /\
   requirements file2_resource = None /\
   merge_requirements_from_environemnt merge_test_fs file2_resource merge_test_env
     "/tmp/env/dir2/file2.js" = Raise ShutilError /\
   ~ copies_byte_for_byte merge_test_fs file2_resource merge_test_env
       "/tmp/env/dir2/file2.js") /\
  (fs_isdir merge_test_fs "/tmp/env/dir1" = true /\
   merge_requirements_from_environemnt merge_test_fs file2_resource merge_test_env
     "/tmp/env/dir1" = Raise IOError /\
   ~ copies_byte_for_byte merge_test_fs file2_resource merge_test_env "/tmp/env/dir1").
Proof.
  assert (Hraise : forall fs self environment out e,
             merge_requirements_from_environemnt fs self environment out = Raise e ->
             ~ copies_byte_for_byte fs self environment out).
  { intros fs self environment out e H (actions & Hok & _). congruence. }
  split; [|split].
  - split; [vm_compute; reflexivity|]. split; [reflexivity|].
    assert (H : merge_requirements_from_environemnt merge_test_fs file3_resource
                  merge_test_env "/tmp/env/output/file3.js" = Raise TypeError)
      by (vm_compute; reflexivity).
    split; [exact H|exact (Hraise _ _ _ _ _ H)].
  - split; [vm_compute; reflexivity|]. split; [reflexivity|].
    assert (H : merge_requirements_from_environemnt merge_test_fs file2_resource
                  merge_test_env "/tmp/env/dir2/file2.js" = Raise ShutilError)
      by (vm_compute; reflexivity).
    split; [exact H|exact (Hraise _ _ _ _ _ H)].
  - split; [vm_compute; reflexivity|].
    assert (H : merge_requirements_from_environemnt merge_test_fs file2_resource
                  merge_test_env "/tmp/env/dir1" = Raise IOError)
      by (vm_compute; reflexivity).
    split; [exact H|exact (Hraise _ _ _ _ _ H)].
Qed.

(** C8, as amended: a resource constructed from an existing file and
    without requirements, merged to an output path that is not the source
    file and can be written (it names a file, not a directory, in a
    directory that exists or can be made), is merged by copying: the merge
    returns, and the output path then holds exactly the bytes of the
    source file. *)
Theorem merge_without_requirements_is_a_copy
        (fs : FileSystem) (p : str) (self : Resource) (environment : Environment)
        (output_file_path data : str) :
  Resource_init fs p = Ok self ->
  fs_file fs p = Some data ->
  requirements self = None ->
  samefile fs p output_file_path = false ->
  can_write fs output_file_path = true ->
  exists actions,
    merge_requirements_from_environemnt fs self environment output_file_path = Ok actions /\
    run_io actions (fs_file fs) output_file_path = fs_file fs p.
Proof.
  intros Hinit Hsrc Hr Hne Hout.
  apply Resource_init_inv in Hinit as (_ & Hp & _ & _ & _ & Hcontent & _).
  unfold _set_content, os_path_exists, read_file in Hcontent.
  rewrite Hsrc in Hcontent. simpl in Hcontent. injection Hcontent as Hcontent.
  exists (ensure_directory fs output_file_path ++ [WriteFile output_file_path data]).
  split.
  - apply (merge_copies fs self environment output_file_path data data); auto; congruence.
  - rewrite Hsrc. apply run_io_write.
Qed.

Lemma merge_without_requirements_is_a_copy_witness :
  exists actions,
    merge_requirements_from_environemnt merge_test_fs file2_resource merge_test_env
      "/tmp/env/output/file2.js" = Ok actions /\
    run_io actions (fs_file merge_test_fs) "/tmp/env/output/file2.js"
    = fs_file merge_test_fs "/tmp/env/dir2/file2.js".
Proof.
  apply (merge_without_requirements_is_a_copy merge_test_fs "/tmp/env/dir2/file2.js"
           file2_resource merge_test_env "/tmp/env/output/file2.js" file2_content).
  - vm_compute. reflexivity.
  - vm_compute. reflexivity.
  - reflexivity.
  - vm_compute. reflexivity.
  - vm_compute. reflexivity.
Defined.

(** ** Delimiters of a javascript declaration *)

Lemma opening_inv (o : ascii) :
  Re.opening o = true -> o = "<"%char \/ o = "034"%char.
Proof.
  unfold Re.opening. intros H. apply orb_true_iff in H as [H|H];
    apply Ascii.eqb_eq in H; auto.
Qed.

Lemma closing_inv (c : ascii) :
  Re.closing c = true -> c = ">"%char \/ c = "034"%char.
Proof.
  unfold Re.closing. intros H. apply orb_true_iff in H as [H|H];
    apply Ascii.eqb_eq in H; auto.
Qed.

(** A greedy repetition that runs to the end of the input gives back its
    last character when the rest of the pattern needs one. *)
Lemma greedy_gives_back_one {R} (p : ascii -> bool) (k : str -> option R)
      (t : str) (c : ascii) (res : R) :
  Forall (fun x => p x = true) t ->
  p c = true ->
  k [] = None ->
  k [c] = Some res ->
  Re.greedy p k (t ++ [c]) = Some res.
Proof.
  intros Ht Hc Hnil Hone. induction Ht as [|x t Hx Ht IH]; simpl.
  - now rewrite Hc, Hnil.
  - now rewrite Hx, IH.
Qed.

Lemma run_literal {R} (l s : str) (gs : list str) (k : str -> list str -> option R) :
  Re.run (literal l) (l ++ s) gs k = k s gs.
Proof.
  induction l as [|x l IH]; simpl; [reflexivity|].
  rewrite Ascii.eqb_refl. exact IH.
Qed.

Lemma run_cat {R} (r1 r2 : regex) (s : str) (gs : list str)
      (k : str -> list str -> option R) :
  Re.run (Cat r1 r2) s gs k = Re.run r1 s gs (fun s' gs' => Re.run r2 s' gs' k).
Proof. reflexivity. Qed.

Lemma greedy_stop {R} (p : ascii -> bool) (y : ascii) (s : str) (k : str -> option R) :
  hd_error s = Some y -> p y = false -> Re.greedy p k s = k s.
Proof.
  destruct s as [|x s]; simpl; [discriminate|].
  intros [= ->] Hy. now rewrite Hy.
Qed.

Lemma run_star_stop {R} (p : ascii -> bool) (y : ascii) (s : str) (gs : list str)
      (k : str -> list str -> option R) :
  hd_error s = Some y -> p y = false -> Re.run (Star p) s gs k = k s gs.
Proof. intros Hs Hy. simpl. now rewrite (greedy_stop p y). Qed.

Lemma run_plus_one {R} (p : ascii -> bool) (x y : ascii) (s : str) (gs : list str)
      (k : str -> list str -> option R) :
  p x = true -> hd_error s = Some y -> p y = false ->
  Re.run (Plus p) (x :: s) gs k = k s gs.
Proof. intros Hx Hs Hy. simpl. now rewrite Hx, (greedy_stop p y). Qed.

Lemma run_grp_cls {R} (p : ascii -> bool) (x : ascii) (s : str) (gs : list str)
      (k : str -> list str -> option R) :
  p x = true -> Re.run (Grp (Cls p)) (x :: s) gs k = k s (gs ++ [[x]]).
Proof.
  intros Hx. cbn [Re.run]. rewrite Hx.
  change (x :: s) with ([x] ++ s). now rewrite firstn_length_app.
Qed.

Lemma run_grp_plus_gives_back_one {R} (p : ascii -> bool) (x : ascii) (t : str) (c : ascii)
      (gs : list str) (k : str -> list str -> option R) (res : R) :
  p x = true -> Forall (fun y => p y = true) t -> p c = true ->
  (forall gs', k [] gs' = None) ->
  k [c] (gs ++ [x :: t]) = Some res ->
  Re.run (Grp (Plus p)) (x :: t ++ [c]) gs k = Some res.
Proof.
  intros Hx Ht Hc Hnil Hone. cbn [Re.run]. rewrite Hx.
  apply greedy_gives_back_one; auto.
  change (x :: t ++ [c]) with ((x :: t) ++ [c]).
  now rewrite firstn_length_app.
Qed.

(** The pattern matches a whole declaration line, whichever of the two
    closing delimiters ends it. *)
Lemma js_declaration_match (o c : ascii) (nm : str) :
  Re.opening o = true -> Re.closing c = true ->
  nm <> [] -> Forall (fun x => Re.non_space x = true) nm ->
  Re.match_at js_require_re ("//= require " ++ [o] ++ nm ++ [c])
  = Some (length ("//= require " ++ [o] ++ nm ++ [c]), [[o]; nm]).
Proof.
  intros Ho Hc Hne Hnm.
  destruct nm as [|x nm]; [contradiction|].
  inversion Hnm as [|? ? Hx Hrest]; subst.
  assert (Hob : Re.blank o = false).
  { apply opening_inv in Ho as [-> | ->]; reflexivity. }
  assert (Hcn : Re.non_space c = true).
  { apply closing_inv in Hc as [-> | ->]; reflexivity. }
  unfold Re.match_at.
  set (input := "//= require " ++ [o] ++ (x :: nm) ++ [c]).
  set (k0 := fun (s' : str) (gs : list str) => Some (length input - length s', gs)).
  change input with ("//=" ++ " "%char :: "require" ++ " "%char :: o :: x :: nm ++ [c]).
  change js_require_re with
    (Cat (Star Re.is_space)
       (Cat (literal "//=")
          (Cat (Plus Re.blank)
             (Cat (literal "require")
                (Cat (Plus Re.blank)
                   (Cat (Grp (Cls Re.opening))
                      (Cat (Grp (Plus Re.non_space))
                         (Cat (Cls Re.closing) (Cat (Star Re.blank) Eps))))))))).
  rewrite run_cat, (run_star_stop _ "/"%char) by reflexivity.
  rewrite run_cat, run_literal.
  rewrite run_cat, (run_plus_one _ _ "r"%char) by reflexivity.
  rewrite run_cat, run_literal.
  rewrite run_cat, (run_plus_one _ _ o) by (reflexivity || assumption).
  rewrite run_cat, run_grp_cls by assumption.
  rewrite run_cat.
  apply run_grp_plus_gives_back_one; auto.
  cbn [Re.run]. rewrite Hc. simpl Re.greedy. unfold k0.
  simpl length at 2. now rewrite Nat.sub_0_r.
Qed.

Lemma finditer_from_skip_all (r : regex) (s : str) :
  Re.match_at r [] = None ->
  forall pos, Re.finditer_from r pos (length s) s = [].
Proof.
  intros Hnil. induction s as [|x s IH]; intros pos; simpl.
  - now rewrite Hnil.
  - apply IH.
Qed.

(** C10: a javascript declaration line is found whichever of [>] and the
    double quote closes the name, also when it does not pair with the
    opening delimiter; the type of the requirement comes from the opening
    delimiter alone: global after [<], local after a double quote. *)
Theorem js_delimiters_are_independent (o c : ascii) (nm : str) :
  Re.opening o = true ->
  Re.closing c = true ->
  nm <> [] ->
  Forall (fun x => Re.non_space x = true) nm ->
  _set_requirements "javascript" (Some ("//= require " ++ [o] ++ nm ++ [c]))
  = Some [{| name := nm;
             type := if Ascii.eqb o "<"%char then "global" : str else "local" : str;
             insert_location := (0, length ("//= require " ++ [o] ++ nm ++ [c])) |}].
Proof.
  intros Ho Hc Hne Hnm.
  rewrite _set_requirements_scan by reflexivity.
  change (require_re "javascript") with js_require_re.
  unfold Re.finditer.
  change ("//= require " ++ [o] ++ nm ++ [c])
    with ("/"%char :: "/= require " ++ [o] ++ nm ++ [c]) at 1.
  cbn [Re.finditer_from].
  change ("/"%char :: "/= require " ++ [o] ++ nm ++ [c])
    with ("//= require " ++ [o] ++ nm ++ [c]).
  rewrite (js_declaration_match o c nm Ho Hc Hne Hnm).
  change (length ("//= require " ++ [o] ++ nm ++ [c]) - 1)
    with (length ("/= require " ++ [o] ++ nm ++ [c]) - 0).
  rewrite Nat.sub_0_r, finditer_from_skip_all by reflexivity.
  unfold requirement_of_match. cbn [map Re.m_groups Re.m_start Re.m_end nth Nat.add].
  cbn [Py.str_eqb list_ascii_of_string]. rewrite andb_true_r. reflexivity.
Qed.

Lemma js_delimiters_are_independent_witness :
  _set_requirements "javascript" (Some ("//= require " ++ ["<"%char] ++ "jquery" ++ dq))
  = Some [{| name := "jquery";
             type := if Ascii.eqb "<"%char "<"%char then "global" : str else "local" : str;
             insert_location :=
               (0, length ("//= require " ++ ["<"%char] ++ "jquery" ++ dq)) |}].
Proof.
  apply (js_delimiters_are_independent "<"%char "034"%char "jquery").
  - reflexivity.
  - reflexivity.
  - discriminate.
  - repeat constructor.
Defined.

(** The two mismatched declarations, evaluated. *)
Example scan_mismatched_delimiters :
  _set_requirements "javascript" (Some ("//= require <jquery" ++ dq))
  = Some [{| name := "jquery"; type := "global"; insert_location := (0, 20) |}] /\
  _set_requirements "javascript" (Some ("//= require " ++ dq ++ "jquery>"))
  = Some [{| name := "jquery"; type := "local"; insert_location := (0, 20) |}].
Proof. split; vm_compute; reflexivity. Qed.

(** ** The base name *)

Lemma rfind_from_before_last (c : ascii) (s : str) :
  forall i found,
    Py.rfind_from c s i found =
    match before_last c s with
    | Some h => (i + Z.of_nat (length h))%Z
    | None => found
    end.
Proof.
  induction s as [|x s IH]; intros i found; simpl; [reflexivity|].
  rewrite IH. destruct (before_last c s) as [h|].
  - simpl length. lia.
  - destruct (Ascii.eqb x c); simpl; [lia|reflexivity].
Qed.

Lemma before_last_split (c : ascii) (s h : str) :
  before_last c s = Some h -> exists t, s = h ++ c :: t.
Proof.
  revert h. induction s as [|x s IH]; simpl; intros h; [discriminate|].
  destruct (before_last c s) as [h'|].
  - intros [= <-]. destruct (IH h' eq_refl) as (t & ->). now exists t.
  - destruct (Ascii.eqb x c) eqn:E; [|discriminate].
    apply Ascii.eqb_eq in E. subst x. intros [= <-]. now exists s.
Qed.

(** [rpartition] gives the text before the last separator. *)
Lemma rpartition_before_last (s : str) (c : ascii) :
  Py.rpartition s c =
  match before_last c s with
  | Some h => (h, [c], skipn (length h + 1) s)
  | None => ([], [], s)
  end.
Proof.
  unfold Py.rpartition, Py.rfind. rewrite rfind_from_before_last.
  destruct (before_last c s) as [h|] eqn:E; [|reflexivity].
  destruct (Z.ltb_spec (0 + Z.of_nat (length h)) 0) as [Hlt|_]; [lia|].
  replace (Z.to_nat (0 + Z.of_nat (length h))) with (length h) by lia.
  unfold Py.slice_to, Py.slice_from.
  destruct (before_last_split _ _ _ E) as (t & ->).
  replace (length h) with (length h + 0) at 1 by lia.
  rewrite firstn_app_2. simpl. now rewrite app_nil_r.
Qed.

(** The test for a trailing [-min] and its removal. *)
Lemma strip_min_without_min (s : str) :
  (if Py.str_eqb (Py.last_n s 4) "-min" then Py.drop_last_n s 4 else s) = without_min s.
Proof. reflexivity. Qed.

(** The code and the wording agree on every path whose file name has an
    extension. *)
Lemma base_name_with_extension (path_to_file : str) :
  snd (OsPath.splitext (snd (OsPath.split path_to_file))) <> [] ->
  _parse_base_name path_to_file = base_name_in_words path_to_file.
Proof.
  unfold _parse_base_name, base_name_in_words, without_extension, without_version.
  destruct (OsPath.split path_to_file) as [directory file]. simpl snd.
  unfold OsPath.splitext, Py.rpartition at 1.
  set (sepIndex := Py.rfind file "/"%char).
  set (dotIndex := Py.rfind file "."%char).
  destruct ((sepIndex <? dotIndex)%Z
            && existsb (fun x => negb (Ascii.eqb x "."%char))
                 (Py.slice file (Z.to_nat (sepIndex + 1)) (Z.to_nat dotIndex))) eqn:E;
    simpl; [intros _|intros H; now contradiction H].
  apply andb_true_iff in E as [Hlt _]. apply Z.ltb_lt in Hlt.
  assert (Hsep : (-1 <= sepIndex)%Z).
  { unfold sepIndex, Py.rfind. rewrite rfind_from_before_last.
    destruct (before_last "/"%char file); lia. }
  destruct (Z.ltb_spec dotIndex 0) as [Hneg|_]; [lia|].
  rewrite strip_min_without_min, rpartition_before_last.
  destruct (before_last "-"%char (without_min (Py.lower (Py.slice_to file (Z.to_nat dotIndex)))));
    reflexivity.
Qed.

(** A file name without any dot has the empty base name. *)
Lemma base_name_without_dot (path_to_file : str) :
  before_last "."%char (snd (OsPath.split path_to_file)) = None ->
  _parse_base_name path_to_file = [].
Proof.
  intros H. unfold _parse_base_name.
  destruct (OsPath.split path_to_file) as [directory file]. simpl in H.
  rewrite rpartition_before_last, H. reflexivity.
Qed.

Example base_name_tests :
  map _parse_base_name
      ["/usr/local/file.js" : str; "FILE.JS" : str;
       "some-Plugin-2.3.2-min.js" : str; "jQuery-1.2.3.js" : str]
  = ["file" : str; "file" : str; "some-plugin" : str; "jquery" : str].
Proof. reflexivity. Qed.

Example file_type_tests :
  map file_type_of
      ["file.someCrazyThing" : str; "c:\file.js" : str; "file.Js" : str;
       "file.awesome.js" : str; "file.JavaScript" : str; "FILE.CSS" : str;
       "someFile" : str]
  = ["unknown" : str; "javascript" : str; "javascript" : str;
     "javascript" : str; "javascript" : str; "css" : str; "unknown" : str].
Proof. reflexivity. Qed.

(** C5, at an input on which the code departs from it: the file name
    [README] has no extension, so that the wording gives the base name
    [readme]; the code gives the empty string, for want of a dot to split
    at. *)
Theorem base_name_without_extension_is_empty :
  _parse_base_name "README" = [] /\ base_name_in_words "README" = "readme".
Proof. split; reflexivity. Qed.

Lemma README_resource_base_name (fs : FileSystem) (r : Resource) :
  Resource_init fs "README" = Ok r -> base_name r = [].
Proof.
  intros H. apply Resource_init_inv in H as (_ & _ & _ & _ & H & _).
  rewrite H. reflexivity.
Qed.

(** ** The tests of the repository, on the model *)

Example extension_tests :
  map (fun p => fst (_parse_extension_and_file_type p))
      ["/var/someFile.js" : str; "someFile.JS" : str; "noExtension" : str;
       "someFile.SomECraZytype" : str]
  = ["js" : str; "js" : str; [] ; "somecrazytype" : str].
Proof. reflexivity. Qed.

(** A resource for a path without a file has neither content nor
    requirements. *)
Example resource_without_file :
  Resource_init merge_test_fs "some file"
  = Ok {| path_to_file := "some file"; extension := []; file_type := "unknown";
          base_name := []; content := None; requirements := None |}.
Proof. vm_compute. reflexivity. Qed.

Example plain_content_has_no_requirements :
  _set_requirements "javascript" (Some ("var foo = {};" : str)) = None.
Proof. vm_compute. reflexivity. Qed.

(** One javascript file among three files is found; in a sub-directory it
    is found with its path; without any, discovery returns [None]. *)
Example find_all_javascript_resources :
  option_map (map path_to_file)
    (match find_all_of_type_in_environment
             (tree_fs (Dir "/tmp/env" [File "test.js" []; File "test.css" [];
                                       File "test.html" []]))
             "javascript" merge_test_env with
     | Ok found => found
     | Raise _ => None
     end)
  = Some ["/tmp/env/test.js" : str].
Proof. vm_compute. reflexivity. Qed.

Example find_all_javascript_resources_in_sub_directory :
  option_map (map path_to_file)
    (match find_all_of_type_in_environment
             (tree_fs (Dir "/tmp/env" [Dir "subdir" [File "test.js" []];
                                       File "test.css" []; File "test.html" []]))
             "javascript" merge_test_env with
     | Ok found => found
     | Raise _ => None
     end)
  = Some ["/tmp/env/subdir/test.js" : str].
Proof. vm_compute. reflexivity. Qed.

Example find_all_javascript_resources_without_any :
  find_all_of_type_in_environment (tree_fs (Dir "/tmp/env" [File "test.css" []]))
    "javascript" merge_test_env
  = Ok None.
Proof. vm_compute. reflexivity. Qed.

(** * Further properties *)

(** ** Strings and paths *)

Lemma lower_char_not_upper (c : ascii) : is_upper (Py.lower_char c) = false.
Proof.
  unfold Py.lower_char, is_upper.
  destruct ((65 <=? nat_of_ascii c) && (nat_of_ascii c <=? 90)) eqn:E; [|exact E].
  apply andb_true_iff in E as [H1 H2].
  apply Nat.leb_le in H1. apply Nat.leb_le in H2.
  rewrite nat_ascii_embedding by lia.
  apply andb_false_iff. right. apply Nat.leb_gt. lia.
Qed.

Lemma lower_not_upper (s : str) : Forall (fun c => is_upper c = false) (Py.lower s).
Proof.
  unfold Py.lower. induction s; simpl; constructor; auto using lower_char_not_upper.
Qed.

Lemma lower_app (a b : str) : Py.lower (a ++ b) = Py.lower a ++ Py.lower b.
Proof. apply map_app. Qed.

(** Lower-casing neither creates nor removes a character that is not a
    letter. *)
Lemma in_lower_other (c : ascii) (s : str) :
  is_upper c = false ->
  (forall u, is_upper u = true -> Py.lower_char u <> c) ->
  In c (Py.lower s) <-> In c s.
Proof.
  intros Hc Hu. unfold Py.lower. rewrite in_map_iff. split.
  - intros (x & Hx & Hin). destruct (is_upper x) eqn:E.
    + exfalso. exact (Hu x E Hx).
    + unfold Py.lower_char in Hx. fold (is_upper x) in Hx. rewrite E in Hx. now subst.
  - intros Hin. exists c. split; [|assumption].
    unfold Py.lower_char. fold (is_upper c). now rewrite Hc.
Qed.

Lemma lower_char_of_upper (u : ascii) :
  is_upper u = true -> 97 <= nat_of_ascii (Py.lower_char u) <= 122.
Proof.
  intros H. unfold Py.lower_char. fold (is_upper u). rewrite H.
  unfold is_upper in H. apply andb_true_iff in H as [H1 H2].
  apply Nat.leb_le in H1. apply Nat.leb_le in H2.
  rewrite nat_ascii_embedding by lia. lia.
Qed.

Lemma in_lower_hyphen (s : str) : In "-"%char (Py.lower s) <-> In "-"%char s.
Proof.
  apply in_lower_other; [reflexivity|].
  intros u Hu E. apply lower_char_of_upper in Hu. rewrite E in Hu.
  change (nat_of_ascii "-"%char) with 45 in Hu. lia.
Qed.

Lemma before_last_none (c : ascii) (s : str) : ~ In c s -> before_last c s = None.
Proof.
  induction s as [|x s IH]; simpl; intros H; [reflexivity|].
  rewrite IH by tauto.
  destruct (Ascii.eqb_spec x c); [|reflexivity]. exfalso. apply H. now left.
Qed.

Lemma before_last_app (c : ascii) (a b : str) :
  ~ In c b -> before_last c (a ++ c :: b) = Some a.
Proof.
  intros H. induction a as [|x a IH]; simpl.
  - now rewrite (before_last_none c b H), Ascii.eqb_refl.
  - now rewrite IH.
Qed.

Lemma before_last_some_in (c : ascii) (s h : str) : before_last c s = Some h -> In c s.
Proof.
  intros H. apply before_last_split in H as (t & ->).
  apply in_or_app. right. now left.
Qed.

Lemma rfind_before_last (s : str) (c : ascii) :
  Py.rfind s c = match before_last c s with
                 | Some h => Z.of_nat (length h)
                 | None => (-1)%Z
                 end.
Proof.
  unfold Py.rfind. rewrite rfind_from_before_last.
  destruct (before_last c s); [lia|reflexivity].
Qed.

Lemma before_last_app_notin (c : ascii) (a b : str) :
  ~ In c b -> before_last c (a ++ b) = before_last c a.
Proof.
  intros H. induction a as [|x a IH]; simpl.
  - now apply before_last_none.
  - now rewrite IH.
Qed.

Lemma before_last_shorter (c : ascii) (s h : str) :
  before_last c s = Some h -> length h < length s.
Proof.
  intros H. apply before_last_split in H as (t & ->).
  rewrite length_app. simpl. lia.
Qed.

(** [os.path.split] gives back a file name that was put after a
    directory. *)
Lemma split_tail (pre file : str) :
  pre = [] \/ (exists d, pre = d ++ "/") ->
  ~ In "/"%char file ->
  snd (OsPath.split (pre ++ file)) = file.
Proof.
  intros Hpre Hfile. unfold OsPath.split. cbn [snd]. unfold Py.slice_from.
  rewrite rfind_before_last.
  destruct Hpre as [-> | (d & ->)].
  - simpl app. now rewrite (before_last_none _ _ Hfile).
  - rewrite <- app_assoc. simpl app. rewrite (before_last_app _ d file Hfile).
    replace (Z.to_nat (Z.of_nat (length d) + 1)) with (length d + 1) by lia.
    rewrite skipn_app, skipn_all2 by lia.
    replace (length d + 1 - length d) with 1 by lia. reflexivity.
Qed.

(** [os.path.splitext] gives back a stem and an extension that were put
    together, when the last component of the stem has a character that is
    not a dot. *)
Lemma splitext_stem_extension (a : str) (x : ascii) (b e : str) :
  x <> "."%char -> x <> "/"%char ->
  ~ In "/"%char b -> ~ In "/"%char e -> ~ In "."%char e ->
  OsPath.splitext (a ++ x :: b ++ "." ++ e) = (a ++ x :: b, "." ++ e).
Proof.
  intros Hxd Hxs Hb He Hed.
  set (stem := a ++ x :: b).
  assert (Hp : a ++ x :: b ++ "." ++ e = stem ++ "."%char :: e).
  { unfold stem. now rewrite <- app_assoc. }
  unfold OsPath.splitext.
  assert (Hdot : Py.rfind (a ++ x :: b ++ "." ++ e) "."%char = Z.of_nat (length stem)).
  { rewrite rfind_before_last, Hp, (before_last_app _ stem e Hed). reflexivity. }
  assert (Hsep : Py.rfind (a ++ x :: b ++ "." ++ e) "/"%char = Py.rfind a "/"%char).
  { rewrite !rfind_before_last, before_last_app_notin; [reflexivity|].
    intros [H|H]; [congruence|].
    apply in_app_or in H as [H|[H|H]]; auto. discriminate. }
  rewrite Hdot, Hsep.
  assert (Hbound : (-1 <= Py.rfind a "/"%char < Z.of_nat (length a))%Z).
  { rewrite rfind_before_last. destruct (before_last "/"%char a) eqn:E; [|lia].
    apply before_last_shorter in E. lia. }
  assert (Hlen : length stem = length a + 1 + length b).
  { unfold stem. rewrite length_app. simpl. lia. }
  destruct (Z.ltb_spec (Py.rfind a "/"%char) (Z.of_nat (length stem))) as [_|Hge]; [|lia].
  set (i := Z.to_nat (Py.rfind a "/"%char + 1)).
  assert (Hi : i <= length a) by (unfold i; lia).
  replace (Z.to_nat (Z.of_nat (length stem))) with (length stem) by lia.
  assert (Hex : existsb (fun y => negb (Ascii.eqb y "."%char))
                  (Py.slice (a ++ x :: b ++ "." ++ e) i (length stem)) = true).
  { apply existsb_exists. exists x. split.
    - unfold Py.slice. rewrite skipn_app.
      replace (i - length a) with 0 by lia. cbn [skipn].
      rewrite firstn_app, length_skipn.
      apply in_or_app. right.
      replace (length stem - i - (length a - i)) with (S (length b)) by lia.
      now left.
    - apply negb_true_iff. now apply Ascii.eqb_neq. }
  rewrite Hex. cbn [andb]. unfold Py.slice_to, Py.slice_from.
  rewrite Hp. f_equal.
  - replace (length stem) with (length stem + 0) by lia.
    rewrite firstn_app_2. cbn [firstn]. apply app_nil_r.
  - rewrite skipn_app, skipn_all2 by lia.
    now replace (length stem - length stem) with 0 by lia.
Qed.

Lemma lower_dot (e : str) : Py.lower ("." ++ e) = "." ++ Py.lower e.
Proof. reflexivity. Qed.

(** ** Extension and file type *)

(** X1: the extension of [stem.e] is [e] in lower case, whatever the case
    of [e], and the file type is read off that lower-case extension. *)
Theorem extension_and_file_type_of_stem_extension (a : str) (x : ascii) (b e : str) :
  x <> "."%char -> x <> "/"%char ->
  ~ In "/"%char b -> ~ In "/"%char e -> ~ In "."%char e ->
  _parse_extension_and_file_type (a ++ x :: b ++ "." ++ e)
  = (Py.lower e,
     if Py.str_eqb (Py.lower e) "js" || Py.str_eqb (Py.lower e) "javascript"
     then "javascript" : str
     else if Py.str_eqb (Py.lower e) "css" then "css" : str else "unknown" : str).
Proof.
  intros Hxd Hxs Hb He Hed. unfold _parse_extension_and_file_type.
  rewrite splitext_stem_extension by assumption.
  rewrite lower_dot. reflexivity.
Qed.

Lemma extension_and_file_type_of_stem_extension_witness :
  _parse_extension_and_file_type ("/var/lib/" ++ "F"%char :: "ILE" ++ "." ++ "JavaScript")
  = (Py.lower "JavaScript",
     if Py.str_eqb (Py.lower "JavaScript") "js"
        || Py.str_eqb (Py.lower "JavaScript") "javascript"
     then "javascript" : str
     else if Py.str_eqb (Py.lower "JavaScript") "css" then "css" : str
          else "unknown" : str).
Proof.
  apply (extension_and_file_type_of_stem_extension "/var/lib/" "F"%char "ILE" "JavaScript").
  - discriminate.
  - discriminate.
  - vm_compute. intuition discriminate.
  - vm_compute. intuition discriminate.
  - vm_compute. intuition discriminate.
Defined.

(** ** The base name *)

(** [_parse_base_name] in terms of the last dot and the last hyphen. *)
Lemma _parse_base_name_steps (path_to_file : str) :
  _parse_base_name path_to_file =
  let name := match before_last "."%char (snd (OsPath.split path_to_file)) with
              | Some h => h
              | None => []
              end in
  let lower_name := without_min (Py.lower name) in
  match before_last "-"%char lower_name with
  | Some h => h
  | None => lower_name
  end.
Proof.
  unfold _parse_base_name.
  destruct (OsPath.split path_to_file) as [directory file]. cbn [snd].
  rewrite rpartition_before_last.
  destruct (before_last "."%char file) as [name|];
    rewrite strip_min_without_min, rpartition_before_last;
    cbv zeta;
    match goal with
    | |- context [before_last "-"%char ?l] => destruct (before_last "-"%char l)
    end; reflexivity.
Qed.

Lemma ends_with_split (s suffix : str) :
  ends_with s suffix = true -> s = firstn (length s - length suffix) s ++ suffix.
Proof.
  unfold ends_with. intros H. apply str_eqb_eq in H.
  rewrite <- (firstn_skipn (length s - length suffix) s) at 1. now rewrite H.
Qed.

Lemma without_min_prefix (s : str) : exists t, s = without_min s ++ t.
Proof.
  unfold without_min. destruct (ends_with s "-min").
  - exists (skipn (length s - length ("-min" : str)) s). now rewrite firstn_skipn.
  - exists []. now rewrite app_nil_r.
Qed.

Lemma without_min_app (s : str) : without_min (s ++ "-min") = s.
Proof.
  unfold without_min, ends_with. rewrite length_app.
  replace (length s + length ("-min" : str) - length ("-min" : str)) with (length s + 0) by lia.
  rewrite skipn_app, skipn_all2, firstn_app_2 by lia.
  replace (length s + 0 - length s) with 0 by lia.
  cbn [skipn firstn app]. rewrite str_eqb_refl. apply app_nil_r.
Qed.

Lemma Forall_prefix {A} (P : A -> Prop) (l t : list A) : Forall P (l ++ t) -> Forall P l.
Proof. intros H. now apply Forall_app in H as [H _]. Qed.

Lemma _parse_base_name_lower (path_to_file : str) :
  Forall (fun c => is_upper c = false) (_parse_base_name path_to_file).
Proof.
  rewrite _parse_base_name_steps. cbv zeta.
  set (name := match before_last "."%char (snd (OsPath.split path_to_file)) with
               | Some h => h
               | None => []
               end).
  assert (Hmin : Forall (fun c => is_upper c = false) (without_min (Py.lower name))).
  { destruct (without_min_prefix (Py.lower name)) as (t & Ht).
    apply (Forall_prefix _ _ t). rewrite <- Ht. apply lower_not_upper. }
  destruct (before_last "-"%char (without_min (Py.lower name))) as [h|] eqn:E; [|exact Hmin].
  apply before_last_split in E as (t & Ht). rewrite Ht in Hmin.
  now apply Forall_prefix in Hmin.
Qed.

(** X2: the base name of a resource holds no upper-case letter. *)
Theorem base_name_has_no_upper_case (fs : FileSystem) (p : str) (r : Resource) :
  Resource_init fs p = Ok r ->
  Forall (fun c => is_upper c = false) (base_name r).
Proof.
  intros H. apply Resource_init_inv in H as (_ & _ & _ & _ & -> & _).
  apply _parse_base_name_lower.
Qed.

Lemma base_name_has_no_upper_case_witness :
  Forall (fun c => is_upper c = false) (base_name file1_resource).
Proof.
  apply (base_name_has_no_upper_case merge_test_fs "/tmp/env/dir1/file1.js" file1_resource).
  vm_compute. reflexivity.
Defined.

(** X3: the naming convention is decoded: a file named by a name, an
    optional version after a hyphen, an optional [-min] and an extension
    has the lower-case name as its base name; without a version the name
    must hold no hyphen, for what follows its last hyphen would be taken
    for a version. *)
Theorem base_name_of_conventional_name
        (pre n ext : str) (version : option str) (minified : bool) :
  pre = [] \/ (exists d, pre = d ++ "/") ->
  ~ In "/"%char n ->
  ~ In "/"%char ext -> ~ In "."%char ext ->
  match version with
  | Some v => ~ In "/"%char v /\ ~ In "-"%char v /\ Py.lower v <> "min"
  | None => ~ In "-"%char n
  end ->
  _parse_base_name (pre ++ conventional_name n version minified ext) = Py.lower n.
Proof.
  intros Hpre Hn Hext Hdot Hversion.
  set (ver := match version with Some v => "-" ++ v | None => [] end : str).
  set (min := (if minified then "-min" : str else []) : str).
  assert (Hfile : conventional_name n version minified ext = (n ++ ver ++ min) ++ "."%char :: ext).
  { unfold conventional_name. fold ver. fold min. now rewrite <- !app_assoc. }
  assert (Hslash : ~ In "/"%char (conventional_name n version minified ext)).
  { rewrite Hfile. intros H.
    apply in_app_or in H as [H|[H|H]]; [|discriminate|tauto].
    apply in_app_or in H as [H|H]; [tauto|].
    apply in_app_or in H as [H|H].
    - unfold ver in H. destruct version as [v|]; [|contradiction].
      destruct H as [H|H]; [discriminate|]. tauto.
    - unfold min in H. destruct minified; simpl in H; intuition discriminate. }
  rewrite _parse_base_name_steps, (split_tail _ _ Hpre Hslash), Hfile.
  rewrite (before_last_app _ _ _ Hdot). cbv zeta.
  rewrite !lower_app.
  assert (Hver : before_last "-"%char (Py.lower n ++ Py.lower ver)
                 = match version with Some _ => Some (Py.lower n) | None => None end).
  { unfold ver. destruct version as [v|].
    - change (Py.lower ("-" ++ v)) with ("-"%char :: Py.lower v).
      apply before_last_app. rewrite in_lower_hyphen. tauto.
    - simpl. rewrite app_nil_r. apply before_last_none. now rewrite in_lower_hyphen. }
  assert (Hfinal : match before_last "-"%char (Py.lower n ++ Py.lower ver) with
                   | Some h => h
                   | None => Py.lower n ++ Py.lower ver
                   end = Py.lower n).
  { rewrite Hver. unfold ver. destruct version; [reflexivity|]. simpl. apply app_nil_r. }
  destruct minified; unfold min.
  - change (Py.lower "-min") with ("-min" : str).
    rewrite app_assoc, without_min_app. exact Hfinal.
  - change (Py.lower []) with (@nil ascii). rewrite app_nil_r.
    unfold without_min at 1 2.
    destruct (ends_with (Py.lower n ++ Py.lower ver) "-min") eqn:E; [|exact Hfinal].
    exfalso. apply ends_with_split in E.
    set (L' := firstn (length (Py.lower n ++ Py.lower ver) - length ("-min" : str))
                      (Py.lower n ++ Py.lower ver)) in E.
    assert (Hlast : before_last "-"%char (Py.lower n ++ Py.lower ver) = Some L').
    { rewrite E at 1. change (L' ++ "-min") with (L' ++ "-"%char :: "min").
      apply before_last_app. simpl. intuition discriminate. }
    rewrite Hver in Hlast. unfold ver in E. destruct version as [v|]; [|discriminate].
    injection Hlast as <-.
    change (Py.lower ("-" ++ v)) with ("-"%char :: Py.lower v) in E.
    change (Py.lower n ++ "-min") with (Py.lower n ++ "-"%char :: "min") in E.
    apply app_inv_head in E. injection E as E.
    now destruct Hversion as (_ & _ & Hmin).
Qed.

Lemma base_name_of_conventional_name_witness :
  _parse_base_name ("/usr/lib/" ++ conventional_name "some-Plugin" (Some ("2.3.2" : str))
                                    true "js")
  = Py.lower "some-Plugin".
Proof.
  apply (base_name_of_conventional_name "/usr/lib/" "some-Plugin" "js" (Some ("2.3.2" : str)) true).
  - right. exists ("/usr/lib" : str). reflexivity.
  - vm_compute. intuition discriminate.
  - vm_compute. intuition discriminate.
  - vm_compute. intuition discriminate.
  - vm_compute. intuition discriminate.
Defined.

(** ** Construction *)

(** X4: the outcome of a construction: the empty path is refused, a
    directory cannot be read, and every other path gives a resource with
    that path whose content is that of the file, absent when there is no
    file. *)
Theorem Resource_init_outcome (fs : FileSystem) (p : str) :
  match Resource_init fs p with
  | Raise e =>
      (p = [] /\ e = Exception) \/
      (p <> [] /\ fs_file fs p = None /\ fs_isdir fs p = true /\ e = IOError)
  | Ok r =>
      p <> [] /\ path_to_file r = p /\ content r = fs_file fs p /\
      (fs_file fs p = None -> fs_isdir fs p = false)
  end.
Proof.
  destruct p as [|x p]; [left; split; reflexivity|].
  unfold Resource_init.
  destruct (_parse_extension_and_file_type (x :: p)) as [ext ft].
  unfold _set_content, os_path_exists, read_file.
  destruct (fs_file fs (x :: p)) as [data|] eqn:F; cbn.
  - repeat split; try discriminate.
  - destruct (fs_isdir fs (x :: p)) eqn:D; cbn.
    + right. repeat split; discriminate.
    + repeat split; discriminate.
Qed.

(** X5: for a resource and the file system it was constructed in, the file
    exists exactly when the resource has content. *)
Theorem exists_iff_content (fs : FileSystem) (p : str) (r : Resource) :
  Resource_init fs p = Ok r ->
  exists_ fs r = true <-> content r <> None.
Proof.
  intros H. apply Resource_init_inv in H as (_ & Hp & _ & _ & _ & Hc & _).
  unfold exists_. rewrite Hp. unfold _set_content, read_file in Hc.
  unfold os_path_exists in *.
  destruct (fs_file fs p) as [data|]; cbn in Hc.
  - injection Hc as <-. split; [discriminate|reflexivity].
  - destruct (fs_isdir fs p); [discriminate|].
    injection Hc as <-. split; [discriminate|congruence].
Qed.

Lemma exists_iff_content_witness :
  exists_ merge_test_fs file1_resource = true <-> content file1_resource <> None.
Proof.
  apply (exists_iff_content merge_test_fs "/tmp/env/dir1/file1.js" file1_resource).
  vm_compute. reflexivity.
Defined.

(** ** The order of the matches *)

Lemma finditer_from_after (r : regex) (s : str) :
  forall pos skip mo,
    In mo (Re.finditer_from r pos skip s) -> pos + skip <= Re.m_start mo.
Proof.
  induction s as [|x s IH]; intros pos skip mo Hin.
  - destruct skip; simpl in Hin; [|contradiction].
    destruct (Re.match_at r []) as [[n gs]|]; [|contradiction].
    destruct Hin as [<-|[]]. simpl. lia.
  - destruct skip as [|skip]; simpl in Hin.
    + destruct (Re.match_at r (x :: s)) as [[n gs]|].
      * destruct Hin as [<-|Hin]; [simpl; lia|]. apply IH in Hin. lia.
      * apply IH in Hin. lia.
    + apply IH in Hin. lia.
Qed.

Lemma finditer_from_sorted (r : regex) (s : str) :
  forall pos skip,
    StronglySorted (fun a b => Re.m_end a <= Re.m_start b) (Re.finditer_from r pos skip s).
Proof.
  induction s as [|x s IH]; intros pos skip.
  - destruct skip; simpl; [|constructor].
    destruct (Re.match_at r []) as [[n gs]|]; repeat constructor.
  - destruct skip as [|skip]; simpl; [|apply IH].
    destruct (Re.match_at r (x :: s)) as [[n gs]|]; [|apply IH].
    constructor; [apply IH|].
    apply Forall_forall. intros mo Hin. apply finditer_from_after in Hin. simpl. lia.
Qed.

Lemma StronglySorted_map {A B} (f : A -> B) (R : B -> B -> Prop) (l : list A) :
  StronglySorted (fun a b => R (f a) (f b)) l -> StronglySorted R (map f l).
Proof.
  induction 1 as [|a l Hl IH Ha]; simpl; constructor; auto.
  apply Forall_forall. intros b Hb. apply in_map_iff in Hb as (a' & <- & Ha').
  rewrite Forall_forall in Ha. auto.
Qed.

(** X6: the requirements of a scan are in the order of the text, and the
    span of each ends before the span of every later one starts. *)
Theorem requirements_in_order_and_disjoint (ft : str) (c : option str)
        (reqs : list Requirement) :
  _set_requirements ft c = Some reqs ->
  StronglySorted (fun a b => snd (insert_location a) <= fst (insert_location b)) reqs.
Proof.
  intros H. apply present_requirements_scan in H as (text & _ & ->).
  apply StronglySorted_map. apply finditer_from_sorted.
Qed.

Lemma requirements_in_order_and_disjoint_witness :
  StronglySorted (fun a b => snd (insert_location a) <= fst (insert_location b))
    [{| name := "jquery"; type := "global"; insert_location := (0, 20) |};
     {| name := "openlayers"; type := "local"; insert_location := (34, 58) |}].
Proof.
  apply (requirements_in_order_and_disjoint "javascript" (Some test_js_content)).
  vm_compute. reflexivity.
Defined.

(** ** What a span covers *)

Lemma slice_middle (before t after : str) :
  Py.slice (before ++ t ++ after) (length before) (length before + length t) = t.
Proof.
  unfold Py.slice. rewrite skipn_app, skipn_all2 by lia.
  replace (length before - length before) with 0 by lia. cbn [skipn app].
  replace (length before + length t - length before) with (length t + 0) by lia.
  rewrite firstn_app_2. cbn [firstn]. apply app_nil_r.
Qed.

(** The requirement of a match of the scan, with the text it was found
    in. *)
Lemma requirement_in_text (ft text : str) (reqs : list Requirement) (q : Requirement) :
  _set_requirements ft (Some text) = Some reqs ->
  In q reqs ->
  exists gs,
    matches (require_re ft) (Py.slice text (fst (insert_location q)) (snd (insert_location q))) gs /\
    name q = nth 1 gs [] /\
    type q = (if Py.str_eqb (nth 0 gs []) "<" then "global" : str else "local" : str).
Proof.
  intros H Hq. apply present_requirements_scan in H as (text' & [= <-] & ->).
  apply in_map_iff in Hq as (mo & <- & Hmo).
  apply finditer_sound in Hmo as (before & t & after & -> & Hs & He & Hm).
  exists (Re.m_groups mo). cbn [requirement_of_match insert_location fst snd name type].
  rewrite Hs, He, slice_middle. auto.
Qed.

(** X7: in a javascript text, the span of a requirement covers exactly a
    declaration: white space, the marker, blanks, [require], blanks, an
    opening delimiter, the name of the requirement, a closing delimiter and
    blanks; the name holds no white space, and the type is global after
    [<] and local after a double quote. *)
Theorem js_span_covers_declaration (text : str) (reqs : list Requirement) (q : Requirement) :
  _set_requirements "javascript" (Some text) = Some reqs ->
  In q reqs ->
  exists ws b1 b2 o c b3,
    Py.slice text (fst (insert_location q)) (snd (insert_location q))
    = ws ++ "//=" ++ b1 ++ "require" ++ b2 ++ [o] ++ name q ++ [c] ++ b3 /\
    Forall (fun x => Re.is_space x = true) ws /\
    b1 <> [] /\ Forall (fun x => Re.blank x = true) b1 /\
    b2 <> [] /\ Forall (fun x => Re.blank x = true) b2 /\
    Re.opening o = true /\ Re.closing c = true /\
    Forall (fun x => Re.blank x = true) b3 /\
    name q <> [] /\ Forall (fun x => Re.non_space x = true) (name q) /\
    type q = (if Ascii.eqb o "<"%char then "global" : str else "local" : str).
Proof.
  intros H Hq.
  destruct (requirement_in_text _ _ _ _ H Hq) as (gs & Hm & Hname & Htype).
  change (require_re "javascript") with js_require_re in Hm.
  apply js_require_re_shape in Hm
    as (ws & b1 & b2 & o & nm & c & b3 & Hs & -> & Hws & Hb1 & Hb1' & Hb2 & Hb2' & Ho & Hnm
        & Hnm' & Hc & Hb3).
  cbn [nth] in Hname, Htype. subst nm.
  exists ws, b1, b2, o, c, b3. repeat split; auto.
  rewrite Htype. cbn [Py.str_eqb list_ascii_of_string]. now rewrite andb_true_r.
Qed.

Lemma js_span_covers_declaration_witness :
  exists ws b1 b2 o c b3,
    Py.slice file1_content 17 37
    = ws ++ "//=" ++ b1 ++ "require" ++ b2 ++ [o] ++ "file2" ++ [c] ++ b3 /\
    Forall (fun x => Re.is_space x = true) ws /\
    b1 <> [] /\ Forall (fun x => Re.blank x = true) b1 /\
    b2 <> [] /\ Forall (fun x => Re.blank x = true) b2 /\
    Re.opening o = true /\ Re.closing c = true /\
    Forall (fun x => Re.blank x = true) b3 /\
    ("file2" : str) <> [] /\ Forall (fun x => Re.non_space x = true) ("file2" : str) /\
    ("global" : str) = (if Ascii.eqb o "<"%char then "global" : str else "local" : str).
Proof.
  apply (js_span_covers_declaration file1_content
           [{| name := "file2"; type := "global"; insert_location := (17, 37) |}]
           {| name := "file2"; type := "global"; insert_location := (17, 37) |}).
  - vm_compute. reflexivity.
  - left. reflexivity.
Defined.

(** X8: in a text of a type other than javascript, the span of a
    requirement covers exactly an import of the name of the requirement,
    and the type of the requirement is local. *)
Theorem css_span_covers_import (ft text : str) (reqs : list Requirement) (q : Requirement) :
  ft <> "javascript" ->
  _set_requirements ft (Some text) = Some reqs ->
  In q reqs ->
  Py.slice text (fst (insert_location q)) (snd (insert_location q))
  = "@import url(" ++ dq ++ name q ++ dq ++ ")" /\
  name q <> [] /\ Forall (fun x => Re.non_space x = true) (name q) /\
  type q = "local".
Proof.
  intros Hft H Hq.
  destruct (requirement_in_text _ _ _ _ H Hq) as (gs & Hm & Hname & Htype).
  unfold require_re in Hm. apply str_eqb_neq in Hft. rewrite Hft in Hm.
  apply css_require_re_shape in Hm as (nm & Hs & -> & Hnm & Hnm').
  cbn [nth] in Hname, Htype. subst nm. repeat split; auto.
Qed.

Lemma css_span_covers_import_witness :
  Py.slice test_css_content 22 50 = "@import url(" ++ dq ++ "something.css" ++ dq ++ ")" /\
  ("something.css" : str) <> [] /\
  Forall (fun x => Re.non_space x = true) ("something.css" : str) /\
  ("local" : str) = "local".
Proof.
  apply (css_span_covers_import "css" test_css_content
           [{| name := "something.css"; type := "local"; insert_location := (22, 50) |}]
           {| name := "something.css"; type := "local"; insert_location := (22, 50) |}).
  - discriminate.
  - vm_compute. reflexivity.
  - left. reflexivity.
Defined.

(** ** Texts without a declaration *)

Lemma is_prefix_app (pattern s : str) : is_prefix pattern (pattern ++ s) = true.
Proof.
  induction pattern as [|x pattern IH]; simpl; [reflexivity|].
  now rewrite Ascii.eqb_refl.
Qed.

Lemma contains_app (a pattern b : str) : contains (a ++ pattern ++ b) pattern = true.
Proof.
  induction a as [|x a IH].
  - simpl app. destruct (pattern ++ b) eqn:E; simpl; rewrite <- E, is_prefix_app; reflexivity.
  - simpl. rewrite IH. apply orb_true_r.
Qed.

(** The text of every match holds the marker. *)
Lemma match_holds_marker (ft t : str) (gs : list str) :
  matches (require_re ft) t gs -> exists a b, t = a ++ marker ft ++ b.
Proof.
  unfold require_re, marker. destruct (Py.str_eqb ft "javascript"); intros H.
  - apply js_require_re_shape in H as (ws & b1 & b2 & o & nm & c & b3 & -> & _).
    exists ws. eexists. reflexivity.
  - apply css_require_re_shape in H as (nm & -> & _).
    exists []. eexists. reflexivity.
Qed.

(** X9: a text in which the marker of its file type does not occur has no
    requirements. *)
Theorem no_marker_no_requirements (ft text : str) :
  contains text (marker ft) = false ->
  _set_requirements ft (Some text) = None.
Proof.
  intros H. apply _set_requirements_none. right. right.
  exists text. split; [reflexivity|].
  destruct (Re.finditer (require_re ft) text) as [|mo ms] eqn:E; [reflexivity|].
  assert (Hin : In mo (Re.finditer (require_re ft) text)) by (rewrite E; now left).
  apply finditer_sound in Hin as (before & t & after & -> & _ & _ & Hm).
  apply match_holds_marker in Hm as (a & b & ->).
  rewrite <- !app_assoc, app_assoc, contains_app in H. discriminate.
Qed.

Lemma no_marker_no_requirements_witness :
  _set_requirements "javascript" (Some ("var foo = {}; // = require <jquery>" : str)) = None.
Proof.
  apply (no_marker_no_requirements "javascript" "var foo = {}; // = require <jquery>").
  vm_compute. reflexivity.
Defined.

(** ** Discovery, whatever the file system *)

Section DiscoveryResults.

Variable fs : FileSystem.
Variable ft : str.

Lemma files_loop_result (dir_path : str) (file_names : list str) :
  forall resources res,
    for_each file_names
      (fun resources file_name =>
         resource <- Resource_init fs (OsPath.join dir_path file_name) ;;
         Ok (if Py.str_eqb (file_type resource) ft
             then resources ++ [resource] else resources))
      resources = Ok res ->
    exists found,
      res = resources ++ found /\
      constructed fs (filter (has_type ft) (map (OsPath.join dir_path) file_names)) found.
Proof.
  induction file_names as [|f fns IH]; simpl; intros resources res H.
  - injection H as <-. exists []. split; [now rewrite app_nil_r|constructor].
  - destruct (Resource_init fs (OsPath.join dir_path f)) as [r|e] eqn:Hr; [|discriminate].
    simpl in H. apply IH in H as (found & -> & Hfound).
    pose proof (Resource_init_inv _ _ _ Hr) as (_ & _ & Hft & _).
    unfold has_type at 1, file_type_of. rewrite <- Hft.
    destruct (Py.str_eqb (file_type r) ft).
    + exists (r :: found). split; [now rewrite <- app_assoc|]. now constructor.
    + exists found. split; [reflexivity|assumption].
Qed.

Lemma walk_loop_result (walk : list (str * list str * list str)) :
  forall resources res,
    for_each walk
      (fun resources '(dir_path, dir_names, file_names) =>
         for_each file_names
           (fun resources file_name =>
              resource <- Resource_init fs (OsPath.join dir_path file_name) ;;
              Ok (if Py.str_eqb (file_type resource) ft
                  then resources ++ [resource] else resources))
           resources)
      resources = Ok res ->
    exists found,
      res = resources ++ found /\
      constructed fs
        (filter (has_type ft)
           (flat_map (fun '(dir_path, dir_names, file_names) =>
                        map (OsPath.join dir_path) file_names) walk)) found.
Proof.
  induction walk as [|[[d ds] fns] walk IH]; simpl; intros resources res H.
  - injection H as <-. exists []. split; [now rewrite app_nil_r|constructor].
  - match type of H with
    | (bind ?c _) = _ => destruct c as [res1|e] eqn:H1; [|discriminate]
    end.
    simpl in H. apply files_loop_result in H1 as (found1 & -> & Hf1).
    apply IH in H as (found2 & -> & Hf2).
    exists (found1 ++ found2). split; [now rewrite <- app_assoc|].
    rewrite filter_app. now apply Forall2_app.
Qed.

Lemma _find_all_of_type_in_path_result (root : str) (found : list Resource) :
  _find_all_of_type_in_path fs ft root = Ok found ->
  constructed fs (filter (has_type ft) (listed_files fs root)) found.
Proof.
  unfold _find_all_of_type_in_path. intros H.
  apply walk_loop_result in H as (found' & -> & H). exact H.
Qed.

Lemma roots_loop_result (roots : list str) :
  forall resources res,
    for_each roots
      (fun resources path =>
         found <- _find_all_of_type_in_path fs ft path ;;
         Ok (resources ++ found))
      resources = Ok res ->
    exists found,
      res = resources ++ found /\
      constructed fs (filter (has_type ft) (flat_map (listed_files fs) roots)) found.
Proof.
  induction roots as [|root roots IH]; simpl; intros resources res H.
  - injection H as <-. exists []. split; [now rewrite app_nil_r|constructor].
  - destruct (_find_all_of_type_in_path fs ft root) as [found1|e] eqn:H1; [|discriminate].
    simpl in H. apply _find_all_of_type_in_path_result in H1.
    apply IH in H as (found2 & -> & Hf2).
    exists (found1 ++ found2). split; [now rewrite <- app_assoc|].
    rewrite filter_app. now apply Forall2_app.
Qed.

(** The loop over the roots with a list to start from. *)
Lemma roots_loop_from (roots : list str) :
  forall resources,
    for_each roots
      (fun resources path =>
         found <- _find_all_of_type_in_path fs ft path ;;
         Ok (resources ++ found))
      resources
    = (found <- for_each roots
                  (fun resources path =>
                     found <- _find_all_of_type_in_path fs ft path ;;
                     Ok (resources ++ found))
                  [] ;;
       Ok (resources ++ found)).
Proof.
  induction roots as [|root roots IH]; intros resources; simpl.
  - now rewrite app_nil_r.
  - destruct (_find_all_of_type_in_path fs ft root) as [found1|e]; simpl; [|reflexivity].
    rewrite IH, (IH found1).
    match goal with
    | |- context [for_each roots ?body []] => destruct (for_each roots body [])
    end; simpl; [|reflexivity].
    now rewrite app_assoc.
Qed.

End DiscoveryResults.

Lemma for_each_app {A S} (l1 l2 : list A) (body : S -> A -> result S) (s : S) :
  for_each (l1 ++ l2) body s = (s' <- for_each l1 body s ;; for_each l2 body s').
Proof.
  revert s. induction l1 as [|a l1 IH]; intros s; simpl; [reflexivity|].
  destruct (body s a); simpl; auto.
Qed.

(** What discovery returns was constructed, in order, from the listed
    paths of the requested type. *)
Lemma discovery_result (fs : FileSystem) (ft : str) (environment : Environment)
      (found : option (list Resource)) :
  find_all_of_type_in_environment fs ft environment = Ok found ->
  constructed fs (filter (has_type ft) (candidates fs environment))
    (match found with Some pool => pool | None => [] end) /\
  found <> Some [].
Proof.
  unfold find_all_of_type_in_environment, candidates. intros H.
  match type of H with
  | (bind ?c _) = _ => destruct c as [res|e] eqn:H1; [|discriminate]
  end.
  apply roots_loop_result in H1 as (pool & -> & Hpool).
  simpl in H. injection H as <-.
  destruct pool; simpl; split; auto; discriminate.
Qed.

Lemma discovered_resource (fs : FileSystem) (ft : str) (environment : Environment)
      (pool : list Resource) (r : Resource) :
  find_all_of_type_in_environment fs ft environment = Ok (Some pool) ->
  In r pool ->
  In (path_to_file r) (candidates fs environment) /\
  Resource_init fs (path_to_file r) = Ok r /\
  file_type r = ft.
Proof.
  intros H Hr. apply discovery_result in H as [Hc _]. unfold constructed in Hc.
  assert (G : forall ps rs, Forall2 (fun p r => Resource_init fs p = Ok r) ps rs ->
                            In r rs -> exists p, In p ps /\ Resource_init fs p = Ok r).
  { induction 1 as [|p0 r0 ps rs H0 _ IH]; intros Hin; [contradiction|].
    destruct Hin as [->|Hin].
    - exists p0. split; [now left|assumption].
    - destruct (IH Hin) as (p1 & H1 & H2). exists p1. split; [now right|assumption]. }
  destruct (G _ _ Hc Hr) as (p & Hp & Hinit).
  apply filter_In in Hp as [Hp Hty].
  pose proof (Resource_init_inv _ _ _ Hinit) as (_ & Hpath & Hft & _).
  rewrite Hpath. repeat split; auto.
  rewrite Hft. unfold has_type, file_type_of in Hty. now apply str_eqb_eq.
Qed.

(** X10: discovery never returns the empty list, a resource of another
    type, or a resource that it did not construct from a path that
    [os.walk] lists below a root. *)
Theorem discovery_returns_only_listed_files_of_the_type
        (fs : FileSystem) (ft : str) (environment : Environment) (pool : list Resource) :
  find_all_of_type_in_environment fs ft environment = Ok (Some pool) ->
  pool <> [] /\
  map path_to_file pool = filter (has_type ft) (candidates fs environment) /\
  forall r, In r pool ->
    In (path_to_file r) (candidates fs environment) /\
    Resource_init fs (path_to_file r) = Ok r /\
    file_type r = ft.
Proof.
  intros H. split; [|split].
  - apply discovery_result in H as [_ Hne]. congruence.
  - apply discovery_result in H as [Hc _]. now apply (constructed_paths fs).
  - intros r Hr. now apply (discovered_resource fs ft environment pool).
Qed.

Lemma discovery_returns_only_listed_files_of_the_type_witness :
  [file1_resource; file2_resource] <> [] /\
  map path_to_file [file1_resource; file2_resource]
  = filter (has_type "javascript") (candidates merge_test_fs merge_test_env) /\
  forall r, In r [file1_resource; file2_resource] ->
    In (path_to_file r) (candidates merge_test_fs merge_test_env) /\
    Resource_init merge_test_fs (path_to_file r) = Ok r /\
    file_type r = "javascript".
Proof.
  apply (discovery_returns_only_listed_files_of_the_type merge_test_fs "javascript"
           merge_test_env).
  vm_compute. reflexivity.
Defined.

(** X11: discovery over the roots of two environments, one after the other,
    is discovery over each, put together; an exception of the first, or
    else of the second, is the exception of the whole. *)
Theorem discovery_of_appended_roots (fs : FileSystem) (ft : str) (roots1 roots2 : list str) :
  find_all_of_type_in_environment fs ft {| paths := roots1 ++ roots2 |}
  = (found1 <- find_all_of_type_in_environment fs ft {| paths := roots1 |} ;;
     found2 <- find_all_of_type_in_environment fs ft {| paths := roots2 |} ;;
     Ok (join_found found1 found2)).
Proof.
  unfold find_all_of_type_in_environment. cbn [paths].
  rewrite for_each_app.
  match goal with
  | |- context [for_each roots1 ?body []] => destruct (for_each roots1 body []) as [res1|e]
  end; simpl; [|reflexivity].
  rewrite roots_loop_from.
  match goal with
  | |- context [for_each roots2 ?body []] => destruct (for_each roots2 body []) as [res2|e]
  end; simpl; [|reflexivity].
  destruct res1, res2; simpl; try reflexivity.
  now rewrite app_nil_r.
Qed.

(** ** The merge as a whole *)





(** X13: a resource constructed for a path without a file cannot be merged:
    the merge raises before it does anything to the file system. *)
Theorem merge_of_missing_file_raises (fs : FileSystem) (p : str) (self : Resource)
        (environment : Environment) (out : str) :
  Resource_init fs p = Ok self ->
  fs_file fs p = None ->
  merge_requirements_from_environemnt fs self environment out = Raise TypeError.
Proof.
  intros H Hfile. apply Resource_init_inv in H as (_ & _ & _ & _ & _ & Hc & _).
  unfold _set_content, os_path_exists, read_file in Hc. rewrite Hfile in Hc.
  destruct (fs_isdir fs p); [discriminate|]. injection Hc as Hc.
  unfold merge_requirements_from_environemnt. now rewrite <- Hc.
Qed.

Lemma merge_of_missing_file_raises_witness :
  merge_requirements_from_environemnt merge_test_fs
    {| path_to_file := "some file"; extension := []; file_type := "unknown";
       base_name := []; content := None; requirements := None |}
    merge_test_env "/tmp/env/output/result.js"
  = Raise TypeError.
Proof.
  apply (merge_of_missing_file_raises merge_test_fs "some file").
  - vm_compute. reflexivity.
  - vm_compute. reflexivity.
Defined.

(** One step of the merge on a pool all of whose resources have content. *)
Lemma merge_requirement_step (fs : FileSystem) (ft : str) (environment : Environment)
      (pool : list Resource) (merged_content : str) (requirement : Requirement) :
  find_all_of_type_in_environment fs ft environment = Ok (Some pool) ->
  Forall (fun r => content r <> None) pool ->
  merge_requirement fs ft environment merged_content requirement
  = Ok (splice_or_keep pool merged_content requirement).
Proof.
  intros Hpool Hc. unfold merge_requirement, splice_or_keep.
  rewrite Hpool. cbn [bind]. rewrite splice_first_match_find.
  destruct (find (fun r => Py.str_eqb (base_name r) (name requirement)) pool) as [m|] eqn:F;
    [|reflexivity].
  apply find_some in F as [Hin _]. rewrite Forall_forall in Hc.
  specialize (Hc m Hin). now destruct (content m).
Qed.

(** X14: the merge of a resource with requirements against a pool all of
    whose resources have content, to an output path that can be written
    (it names a file, not a directory, in a directory that exists or can
    be made), writes the content of the resource after the splices of the
    requirements, one after the other in the order of the scan, each at
    the offsets of the scan whatever the earlier splices did to the length
    of the buffer. *)
Theorem merge_is_a_fold_of_splices (fs : FileSystem) (self : Resource)
        (environment : Environment) (out text : str) (q : Requirement)
        (reqs : list Requirement) (pool : list Resource) :
  content self = Some text ->
  requirements self = Some (q :: reqs) ->
  find_all_of_type_in_environment fs (file_type self) environment = Ok (Some pool) ->
  Forall (fun r => content r <> None) pool ->
  can_write fs out = true ->
  merge_requirements_from_environemnt fs self environment out
  = Ok (ensure_directory fs out
          ++ [WriteFile out (fold_left (splice_or_keep pool) (q :: reqs) text)]).
Proof.
  intros Hc Hr Hpool Hcontent Hout. unfold merge_requirements_from_environemnt.
  rewrite Hc, Hr, (can_write_create _ _ Hout). cbv [bind].
  assert (Hloop : forall rs buf,
             for_each rs (merge_requirement fs (file_type self) environment) buf
             = Ok (fold_left (splice_or_keep pool) rs buf)).
  { induction rs as [|q' rs IH]; intros buf; [reflexivity|].
    cbn [for_each fold_left].
    rewrite (merge_requirement_step _ _ _ pool _ _ Hpool Hcontent). cbn [bind]. apply IH. }
  rewrite Hloop. now rewrite (can_write_write _ _ _ Hout).
Qed.

Lemma merge_is_a_fold_of_splices_witness :
  merge_requirements_from_environemnt merge_test_fs file1_resource merge_test_env
    "/tmp/env/output/result.js"
  = Ok (ensure_directory merge_test_fs "/tmp/env/output/result.js"
          ++ [WriteFile "/tmp/env/output/result.js"
                (fold_left (splice_or_keep [file1_resource; file2_resource])
                   [{| name := "file2"; type := "global"; insert_location := (17, 37) |}]
                   file1_content)]).
Proof.
  apply (merge_is_a_fold_of_splices merge_test_fs file1_resource merge_test_env
           "/tmp/env/output/result.js" file1_content
           {| name := "file2"; type := "global"; insert_location := (17, 37) |} []
           [file1_resource; file2_resource]).
  - reflexivity.
  - reflexivity.
  - vm_compute. reflexivity.
  - repeat constructor; discriminate.
  - vm_compute. reflexivity.
Defined.

(** ** What the merge keeps *)

(** After a step of the merge the buffer is what it was or a splice that
    keeps its first [start + 1] characters. *)
Lemma merge_requirement_cases (fs : FileSystem) (ft : str) (environment : Environment)
      (merged_content res : str) (requirement : Requirement) :
  merge_requirement fs ft environment merged_content requirement = Ok res ->
  res = merged_content \/
  exists text,
    res = firstn (fst (insert_location requirement) + 1) merged_content
            ++ text ++ skipn (snd (insert_location requirement)) merged_content.
Proof.
  unfold merge_requirement.
  destruct (find_all_of_type_in_environment fs ft environment) as [[pool|]|e];
    cbn [bind]; try discriminate.
  rewrite splice_first_match_find.
  destruct (find _ pool) as [m|]; [|intros [= <-]; now left].
  destruct (content m) as [text|]; [|discriminate].
  intros [= <-]. right. now exists text.
Qed.

Lemma firstn_splice (k start : nat) (buf text rest : str) :
  k <= start + 1 -> k <= length buf ->
  firstn k (firstn (start + 1) buf ++ text ++ rest) = firstn k buf /\
  k <= length (firstn (start + 1) buf ++ text ++ rest).
Proof.
  intros Hk Hlen. split.
  - rewrite firstn_app, firstn_firstn, length_firstn.
    replace (Nat.min k (start + 1)) with k by lia.
    replace (k - Nat.min (start + 1) (length buf)) with 0 by lia.
    cbn [firstn]. apply app_nil_r.
  - rewrite length_app, length_firstn. lia.
Qed.

Lemma merge_loop_keeps_prefix (fs : FileSystem) (ft : str) (environment : Environment)
      (k : nat) (reqs : list Requirement) :
  Forall (fun q => k <= fst (insert_location q) + 1) reqs ->
  forall buf res,
    k <= length buf ->
    for_each reqs (merge_requirement fs ft environment) buf = Ok res ->
    firstn k res = firstn k buf /\ k <= length res.
Proof.
  induction 1 as [|q reqs Hq _ IH]; intros buf res Hlen H.
  - injection H as <-. auto.
  - cbn [for_each] in H.
    destruct (merge_requirement fs ft environment buf q) as [buf'|e] eqn:Hstep; [|discriminate].
    cbn [bind] in H.
    apply merge_requirement_cases in Hstep as [->|(text & ->)].
    + now apply IH.
    + destruct (firstn_splice k (fst (insert_location q)) buf text
                  (skipn (snd (insert_location q)) buf) Hq Hlen) as [Hfirst Hlen'].
      destruct (IH _ _ Hlen' H) as [H1 H2]. split; [congruence|assumption].
Qed.

(** The spans of the requirements of a scan start inside the text, and
    none starts before the first. *)
Lemma first_requirement_starts_first (ft text : str) (q : Requirement)
      (reqs : list Requirement) :
  _set_requirements ft (Some text) = Some (q :: reqs) ->
  fst (insert_location q) + 1 <= length text /\
  Forall (fun q' => fst (insert_location q) + 1 <= fst (insert_location q') + 1) (q :: reqs).
Proof.
  intros H.
  pose proof (present_requirements_scan _ _ _ H) as (text' & [= <-] & Hmap).
  assert (Hsorted : StronglySorted
                      (fun a b => snd (insert_location a) <= fst (insert_location b))
                      (q :: reqs)).
  { rewrite Hmap. apply StronglySorted_map. apply finditer_from_sorted. }
  assert (Hspan : fst (insert_location q) < snd (insert_location q) <= length text).
  { assert (Hin : In q (map requirement_of_match (Re.finditer (require_re ft) text))).
    { rewrite <- Hmap. now left. }
    apply in_map_iff in Hin as (mo & <- & Hmo).
    apply finditer_sound in Hmo as (before & t & after & -> & Hs & He & Hm).
    apply require_re_match in Hm as [Ht _].
    cbn [requirement_of_match insert_location fst snd]. rewrite Hs, He, !length_app.
    destruct t; [contradiction|]. simpl. lia. }
  split; [lia|].
  constructor; [lia|].
  apply StronglySorted_inv in Hsorted as [_ Hall].
  eapply Forall_impl; [|exact Hall]. cbv beta. intros q' Hq'. lia.
Qed.

(** X15: the merge of a constructed resource writes the text before its
    first declaration, up to and including the first character of the span
    of that declaration, as it is in the content. *)
Theorem merge_keeps_the_text_before_the_first_declaration
        (fs : FileSystem) (p : str) (self : Resource) (environment : Environment)
        (out : str) (q : Requirement) (reqs : list Requirement) (actions : list io) :
  Resource_init fs p = Ok self ->
  requirements self = Some (q :: reqs) ->
  merge_requirements_from_environemnt fs self environment out = Ok actions ->
  exists text merged,
    content self = Some text /\
    actions = ensure_directory fs out ++ [WriteFile out merged] /\
    firstn (fst (insert_location q) + 1) merged = firstn (fst (insert_location q) + 1) text.
Proof.
  intros Hinit Hr Hmerge.
  apply Resource_init_inv in Hinit as (_ & _ & _ & _ & _ & _ & Hreq).
  rewrite Hr in Hreq. symmetry in Hreq.
  pose proof (present_requirements_scan _ _ _ Hreq) as (text & Hc & _).
  rewrite Hc in Hreq.
  apply first_requirement_starts_first in Hreq as [Hlen Hall].
  exists text.
  unfold merge_requirements_from_environemnt in Hmerge.
  rewrite Hc, Hr in Hmerge. cbn [bind] in Hmerge.
  destruct (create_directory fs out) as [made|e] eqn:Hmade; [|discriminate].
  apply create_directory_ok in Hmade. subst made.
  destruct (for_each (q :: reqs) (merge_requirement fs (file_type self) environment) text)
    as [merged|e] eqn:Hloop; [|discriminate].
  cbn [bind] in Hmerge.
  destruct (write_file fs (ensure_directory fs out) out merged) as [written|e] eqn:Hw;
    [|discriminate].
  apply write_file_ok in Hw. subst written. injection Hmerge as <-.
  exists merged. split; [exact Hc|]. split; [reflexivity|].
  now destruct (merge_loop_keeps_prefix _ _ _ _ _ Hall _ _ Hlen Hloop).
Qed.

Lemma merge_keeps_the_text_before_the_first_declaration_witness :
  exists text merged,
    content file1_resource = Some text /\
    ensure_directory merge_test_fs "/tmp/env/output/result.js"
      ++ [WriteFile "/tmp/env/output/result.js" ("// This is file 1" ++ nl ++ file2_content)]
    = ensure_directory merge_test_fs "/tmp/env/output/result.js"
        ++ [WriteFile "/tmp/env/output/result.js" merged] /\
    firstn (17 + 1) merged = firstn (17 + 1) text.
Proof.
  apply (merge_keeps_the_text_before_the_first_declaration merge_test_fs
           "/tmp/env/dir1/file1.js" file1_resource merge_test_env
           "/tmp/env/output/result.js"
           {| name := "file2"; type := "global"; insert_location := (17, 37) |} []).
  - vm_compute. reflexivity.
  - reflexivity.
  - vm_compute. reflexivity.
Defined.

(** X16: a requirement whose name holds an upper-case letter is never
    resolved: base names are in lower case and the names are compared as
    they are, so the merge leaves the working buffer as it is. *)
Theorem upper_case_requirement_is_never_resolved
        (fs : FileSystem) (ft : str) (environment : Environment) (pool : list Resource)
        (merged_content : str) (requirement : Requirement) (c : ascii) :
  find_all_of_type_in_environment fs ft environment = Ok (Some pool) ->
  In c (name requirement) ->
  is_upper c = true ->
  merge_requirement fs ft environment merged_content requirement = Ok merged_content.
Proof.
  intros Hpool Hc Hupper.
  apply (merge_requirement_no_match fs ft environment merged_content requirement pool Hpool).
  apply Forall_forall. intros r Hr E.
  destruct (discovered_resource fs ft environment pool r Hpool Hr) as (_ & Hinit & _).
  apply Resource_init_inv in Hinit as (_ & _ & _ & _ & Hbase & _).
  pose proof (_parse_base_name_lower (path_to_file r)) as Hlow.
  rewrite <- Hbase, E, Forall_forall in Hlow.
  specialize (Hlow c Hc). congruence.
Qed.

Lemma upper_case_requirement_is_never_resolved_witness :
  merge_requirement merge_test_fs "javascript" merge_test_env file1_content
    {| name := "File2"; type := "global"; insert_location := (17, 37) |}
  = Ok file1_content.
Proof.
  apply (upper_case_requirement_is_never_resolved merge_test_fs "javascript" merge_test_env
           [file1_resource; file2_resource] file1_content
           {| name := "File2"; type := "global"; insert_location := (17, 37) |} "F"%char).
  - vm_compute. reflexivity.
  - left. reflexivity.
  - reflexivity.
Defined.

(** ** The extension *)

Lemma before_last_split_notin (c : ascii) (s h : str) :
  before_last c s = Some h -> exists t, s = h ++ c :: t /\ ~ In c t.
Proof.
  revert h. induction s as [|x s IH]; simpl; intros h; [discriminate|].
  destruct (before_last c s) as [h'|] eqn:E.
  - intros [= <-]. destruct (IH h' eq_refl) as (t & -> & Ht). now exists t.
  - destruct (Ascii.eqb_spec x c) as [->|]; [|discriminate].
    intros [= <-]. exists s. split; [reflexivity|].
    intros Hin. apply in_split in Hin as (l1 & l2 & ->).
    clear IH. revert E. induction l1 as [|y l1 IH1]; simpl.
    + destruct (before_last c l2); [discriminate|]. now rewrite Ascii.eqb_refl.
    + destruct (before_last c (l1 ++ c :: l2)); [discriminate|]. intros _. now apply IH1.
Qed.

Lemma before_last_app_in (c : ascii) (a t : str) :
  In c t -> exists h, before_last c (a ++ t) = Some (a ++ h).
Proof.
  intros Hin.
  assert (Ht : exists h, before_last c t = Some h).
  { destruct (before_last c t) as [h|] eqn:E; [now exists h|].
    exfalso. induction t as [|x t IH]; [contradiction|].
    simpl in E. destruct (before_last c t); [discriminate|].
    destruct (Ascii.eqb_spec x c) as [->|Hx]; [discriminate|].
    destruct Hin as [->|Hin]; [contradiction|auto]. }
  destruct Ht as (h & Ht). exists h.
  induction a as [|x a IH]; simpl; [assumption|]. now rewrite IH.
Qed.

(** What [os.path.splitext] gives as extension is empty, or a dot followed
    by a text without dot or slash. *)
Lemma splitext_extension (p : str) :
  snd (OsPath.splitext p) = [] \/
  exists t, snd (OsPath.splitext p) = "."%char :: t /\
            ~ In "."%char t /\ ~ In "/"%char t.
Proof.
  unfold OsPath.splitext.
  destruct ((Py.rfind p "/"%char <? Py.rfind p "."%char)%Z && _) eqn:E; [|now left].
  right. apply andb_true_iff in E as [Hlt _]. apply Z.ltb_lt in Hlt.
  rewrite !rfind_before_last in Hlt. cbn [snd]. rewrite rfind_before_last.
  destruct (before_last "."%char p) as [h|] eqn:Hdot;
    [|destruct (before_last "/"%char p); lia].
  apply before_last_split_notin in Hdot as (t & -> & Ht).
  exists t. unfold Py.slice_from.
  replace (Z.to_nat (Z.of_nat (length h))) with (length h) by lia.
  rewrite skipn_app, skipn_all2 by lia.
  replace (length h - length h) with 0 by lia.
  repeat split; auto.
  intros Hin.
  destruct (before_last_app_in "/"%char h ("."%char :: t)) as (h' & Hh'); [now right|].
  rewrite Hh' in Hlt. rewrite length_app in Hlt. lia.
Qed.

Lemma in_lower_dot (s : str) : In "."%char (Py.lower s) <-> In "."%char s.
Proof.
  apply in_lower_other; [reflexivity|].
  intros u Hu E. apply lower_char_of_upper in Hu. rewrite E in Hu.
  change (nat_of_ascii "."%char) with 46 in Hu. lia.
Qed.

Lemma in_lower_slash (s : str) : In "/"%char (Py.lower s) <-> In "/"%char s.
Proof.
  apply in_lower_other; [reflexivity|].
  intros u Hu E. apply lower_char_of_upper in Hu. rewrite E in Hu.
  change (nat_of_ascii "/"%char) with 47 in Hu. lia.
Qed.

(** X17: the extension of a resource holds no upper-case letter, no dot and
    no slash. *)
Theorem extension_is_plain (fs : FileSystem) (p : str) (r : Resource) :
  Resource_init fs p = Ok r ->
  Forall (fun c => is_upper c = false) (extension r) /\
  ~ In "."%char (extension r) /\
  ~ In "/"%char (extension r).
Proof.
  intros H. apply Resource_init_inv in H as (_ & _ & _ & -> & _).
  unfold _parse_extension_and_file_type.
  destruct (OsPath.splitext p) as [stem ext] eqn:E. cbn [fst].
  pose proof (splitext_extension p) as Hext. rewrite E in Hext. cbn [snd] in Hext.
  destruct Hext as [->|(t & -> & Hdot & Hslash)].
  - repeat split; [constructor|intros []|intros []].
  - change (Py.slice_from (Py.lower ("."%char :: t)) 1) with (Py.lower t).
    repeat split.
    + apply lower_not_upper.
    + now rewrite in_lower_dot.
    + now rewrite in_lower_slash.
Qed.

Lemma extension_is_plain_witness :
  Forall (fun c => is_upper c = false) (extension file1_resource) /\
  ~ In "."%char (extension file1_resource) /\
  ~ In "/"%char (extension file1_resource).
Proof.
  apply (extension_is_plain merge_test_fs "/tmp/env/dir1/file1.js" file1_resource).
  vm_compute. reflexivity.
Defined.

(** ** Further behaviour of the merge *)

(** X18: a resource without requirements cannot be merged onto its own
    path: the copy is refused. *)
Theorem merge_without_requirements_onto_itself_raises
        (fs : FileSystem) (p : str) (self : Resource) (environment : Environment)
        (data : str) :
  Resource_init fs p = Ok self ->
  fs_file fs p = Some data ->
  requirements self = None ->
  merge_requirements_from_environemnt fs self environment p = Raise ShutilError.
Proof.
  intros Hinit Hfile Hr.
  apply Resource_init_inv in Hinit as (_ & Hp & _ & _ & _ & Hc & _).
  unfold _set_content, os_path_exists, read_file in Hc. rewrite Hfile in Hc.
  cbn in Hc. injection Hc as Hc.
  apply (merge_onto_itself_raises fs self environment p data []); auto.
  - now apply create_directory_of_file with data.
  - rewrite Hp. now apply samefile_refl with data.
Qed.

Lemma merge_without_requirements_onto_itself_raises_witness :
  merge_requirements_from_environemnt merge_test_fs file2_resource merge_test_env
    "/tmp/env/dir2/file2.js"
  = Raise ShutilError.
Proof.
  apply (merge_without_requirements_onto_itself_raises merge_test_fs
           "/tmp/env/dir2/file2.js" file2_resource merge_test_env file2_content).
  - vm_compute. reflexivity.
  - vm_compute. reflexivity.
  - reflexivity.
Defined.

(** X19: when discovery finds resources and none has the name of any
    requirement, the merge to an output path that can be written (it
    names a file, not a directory, in a directory that exists or can be
    made) writes the content as it is. *)
Theorem merge_with_unresolved_requirements
        (fs : FileSystem) (self : Resource) (environment : Environment)
        (out text : str) (q : Requirement) (reqs : list Requirement)
        (pool : list Resource) :
  content self = Some text ->
  requirements self = Some (q :: reqs) ->
  find_all_of_type_in_environment fs (file_type self) environment = Ok (Some pool) ->
  (forall q' r, In q' (q :: reqs) -> In r pool -> base_name r <> name q') ->
  can_write fs out = true ->
  merge_requirements_from_environemnt fs self environment out
  = Ok (ensure_directory fs out ++ [WriteFile out text]).
Proof.
  intros Hc Hr Hpool Hno Hout.
  apply (merge_unresolved_keeps_content fs self environment out text q reqs pool Hc Hr Hpool);
    [|exact Hout].
  apply Forall_forall. intros q' Hq'. apply Forall_forall. intros r Hin. now apply Hno.
Qed.

Lemma merge_with_unresolved_requirements_witness :
  merge_requirements_from_environemnt merge_test_fs app_resource merge_test_env "out.js"
  = Ok (ensure_directory merge_test_fs "out.js"
          ++ [WriteFile "out.js" ("//= require <jquery>" ++ nl ++ "var app = {};")]).
Proof.
  apply (merge_with_unresolved_requirements merge_test_fs app_resource merge_test_env
           "out.js" ("//= require <jquery>" ++ nl ++ "var app = {};")
           {| name := "jquery"; type := "global"; insert_location := (0, 20) |} []
           [file1_resource; file2_resource]).
  - reflexivity.
  - reflexivity.
  - vm_compute. reflexivity.
  - intros q' r [<-|[]] [<-|[<-|[]]]; discriminate.
  - vm_compute. reflexivity.
Defined.

(** ** Output paths that cannot be written *)

(** X22: the merge never returns for an output path that cannot be
    written: one whose last component names no file (the empty path, a
    path that ends in a separator or in a dot component), one that is a
    directory, or one whose directory part exists and is not a
    directory. *)
Theorem merge_to_an_unwritable_path_raises (fs : FileSystem) (self : Resource)
        (environment : Environment) (out : str) :
  unwritable fs out = true ->
  exists e, merge_requirements_from_environemnt fs self environment out = Raise e.
Proof.
  intros Hu.
  destruct (merge_requirements_from_environemnt fs self environment out) as [actions|e] eqn:H;
    [exfalso|now exists e].
  unfold merge_requirements_from_environemnt in H.
  destruct (content self) as [text|]; [|discriminate]. cbn [bind] in H.
  destruct (create_directory fs out) as [made|e] eqn:Hmade; [|discriminate].
  cbn [bind] in H.
  pose proof (unwritable_open _ _ _ Hu Hmade) as Hopen.
  destruct (requirements self) as [[|q reqs]|].
  - unfold copyfile, write_file in H. rewrite Hopen in H.
    destruct (samefile fs (path_to_file self) out); [discriminate|].
    destruct (read_file fs (path_to_file self)); discriminate.
  - destruct (for_each (q :: reqs) (merge_requirement fs (file_type self) environment) text);
      [|discriminate].
    unfold write_file in H. rewrite Hopen in H. discriminate.
  - unfold copyfile, write_file in H. rewrite Hopen in H.
    destruct (samefile fs (path_to_file self) out); [discriminate|].
    destruct (read_file fs (path_to_file self)); discriminate.
Qed.

Lemma merge_to_an_unwritable_path_raises_witness :
  exists e,
    merge_requirements_from_environemnt merge_test_fs file1_resource merge_test_env
      "/tmp/env/dir2" = Raise e.
Proof.
  apply (merge_to_an_unwritable_path_raises merge_test_fs file1_resource merge_test_env
           "/tmp/env/dir2").
  vm_compute. reflexivity.
Defined.

(** Where the directory part of the output path is empty or exists, no
    directory is made. *)
Lemma create_directory_exists (fs : FileSystem) (out : str) :
  OsPath.dirname out = [] \/ os_path_exists fs (OsPath.dirname out) = true ->
  create_directory fs out = Ok [].
Proof.
  intros [H|H]; unfold create_directory; rewrite H; [reflexivity|].
  now rewrite andb_false_r.
Qed.

(** X23: when discovery finds a pool all of whose resources have content,
    and the directory part of the output path is empty or exists, the
    merge of a resource with requirements to an output path that cannot be
    written raises [IOError]: the output file cannot be opened. *)
Theorem merge_with_requirements_to_an_unwritable_path_raises
        (fs : FileSystem) (self : Resource) (environment : Environment)
        (out text : str) (q : Requirement) (reqs : list Requirement) (pool : list Resource) :
  content self = Some text ->
  requirements self = Some (q :: reqs) ->
  find_all_of_type_in_environment fs (file_type self) environment = Ok (Some pool) ->
  Forall (fun r => content r <> None) pool ->
  unwritable fs out = true ->
  OsPath.dirname out = [] \/ os_path_exists fs (OsPath.dirname out) = true ->
  merge_requirements_from_environemnt fs self environment out = Raise IOError.
Proof.
  intros Hc Hr Hpool Hcontent Hu Hdir.
  pose proof (create_directory_exists _ _ Hdir) as Hmade.
  unfold merge_requirements_from_environemnt.
  rewrite Hc, Hr, Hmade. cbv [bind].
  assert (Hloop : forall rs buf,
             for_each rs (merge_requirement fs (file_type self) environment) buf
             = Ok (fold_left (splice_or_keep pool) rs buf)).
  { induction rs as [|q' rs IH]; intros buf; [reflexivity|].
    cbn [for_each fold_left].
    rewrite (merge_requirement_step _ _ _ pool _ _ Hpool Hcontent). cbn [bind]. apply IH. }
  rewrite Hloop. unfold write_file.
  now rewrite (unwritable_open _ _ _ Hu Hmade).
Qed.

Lemma merge_with_requirements_to_an_unwritable_path_raises_witness :
  merge_requirements_from_environemnt merge_test_fs file1_resource merge_test_env
    "/tmp/env/dir2" = Raise IOError.
Proof.
  apply (merge_with_requirements_to_an_unwritable_path_raises merge_test_fs file1_resource
           merge_test_env "/tmp/env/dir2" file1_content
           {| name := "file2"; type := "global"; insert_location := (17, 37) |} []
           [file1_resource; file2_resource]).
  - reflexivity.
  - reflexivity.
  - vm_compute. reflexivity.
  - repeat constructor; discriminate.
  - vm_compute. reflexivity.
  - right. vm_compute. reflexivity.
Defined.

(** X24: the copy of a resource without requirements to an output path
    that is not the source file and cannot be written, where the
    directory part of the output path is empty or exists, raises
    [IOError]: [shutil.copyfile] cannot open its destination. *)
Theorem copy_to_an_unwritable_path_raises
        (fs : FileSystem) (p : str) (self : Resource) (environment : Environment)
        (out data : str) :
  Resource_init fs p = Ok self ->
  fs_file fs p = Some data ->
  requirements self = None ->
  samefile fs p out = false ->
  unwritable fs out = true ->
  OsPath.dirname out = [] \/ os_path_exists fs (OsPath.dirname out) = true ->
  merge_requirements_from_environemnt fs self environment out = Raise IOError.
Proof.
  intros Hinit Hfile Hr Hsame Hu Hdir.
  apply Resource_init_inv in Hinit as (_ & Hp & _ & _ & _ & Hc & _).
  unfold _set_content, os_path_exists, read_file in Hc. rewrite Hfile in Hc.
  cbn in Hc. injection Hc as Hc.
  pose proof (create_directory_exists _ _ Hdir) as Hmade.
  unfold merge_requirements_from_environemnt, copyfile, read_file, write_file.
  rewrite <- Hc, Hr, Hmade, Hp, Hsame, Hfile. cbn [bind].
  now rewrite (unwritable_open _ _ _ Hu Hmade).
Qed.

Lemma copy_to_an_unwritable_path_raises_witness :
  merge_requirements_from_environemnt merge_test_fs file2_resource merge_test_env
    "/tmp/env/dir1" = Raise IOError.
Proof.
  apply (copy_to_an_unwritable_path_raises merge_test_fs "/tmp/env/dir2/file2.js"
           file2_resource merge_test_env "/tmp/env/dir1" file2_content).
  - vm_compute. reflexivity.
  - vm_compute. reflexivity.
  - reflexivity.
  - vm_compute. reflexivity.
  - vm_compute. reflexivity.
  - right. vm_compute. reflexivity.
Defined.

(** X25: the merge of a resource with content to an output path whose
    directory part does not exist and lies directly in a regular file
    raises [OSError]: [os.makedirs] cannot make a directory there. *)
Theorem merge_below_a_regular_file_raises
        (fs : FileSystem) (self : Resource) (environment : Environment)
        (out text data : str) :
  content self = Some text ->
  os_path_exists fs (OsPath.dirname out) = false ->
  OsPath.dirname (OsPath.dirname out) <> [] ->
  fs_file fs (OsPath.dirname (OsPath.dirname out)) = Some data ->
  fs_isdir fs (OsPath.dirname (OsPath.dirname out)) = false ->
  merge_requirements_from_environemnt fs self environment out = Raise OSError.
Proof.
  intros Hc Hmissing Hup Hfile Hnodir.
  assert (Hd : OsPath.dirname out <> []).
  { intros E. rewrite E in Hup. now apply Hup. }
  unfold merge_requirements_from_environemnt, create_directory, makedirs.
  rewrite Hc. cbn [bind].
  apply str_eqb_neq in Hd. rewrite Hd, Hmissing. cbn [negb andb].
  assert (Hmake : can_make (length (OsPath.dirname out)) fs (OsPath.dirname out) = false).
  { destruct (OsPath.dirname out) as [|c d] eqn:E; [discriminate|].
    cbn [length can_make]. unfold OsPath.dirname in Hup, Hfile, Hnodir.
    destruct (OsPath.split (c :: d)) as [head tail]. cbn [fst] in Hup, Hfile, Hnodir.
    apply str_eqb_neq in Hup. rewrite Hup, Hnodir.
    unfold os_path_exists. rewrite Hfile. cbn. apply andb_false_r. }
  now rewrite Hmake.
Qed.

Lemma merge_below_a_regular_file_raises_witness :
  merge_requirements_from_environemnt merge_test_fs file1_resource merge_test_env
    "/tmp/env/dir2/file2.js/min/file1.js" = Raise OSError.
Proof.
  apply (merge_below_a_regular_file_raises merge_test_fs file1_resource merge_test_env
           "/tmp/env/dir2/file2.js/min/file1.js" file1_content file2_content).
  - reflexivity.
  - vm_compute. reflexivity.
  - vm_compute. discriminate.
  - vm_compute. reflexivity.
  - vm_compute. reflexivity.
Defined.

(** ** Types that no file has *)

Lemma file_type_of_cases (p : str) :
  file_type_of p = "javascript" \/ file_type_of p = "css" \/ file_type_of p = "unknown".
Proof.
  unfold file_type_of, _parse_extension_and_file_type.
  destruct (OsPath.splitext p) as [stem ext]. cbn [snd].
  destruct (_ || _); [now left|].
  destruct (Py.str_eqb _ "css"); [right; now left|right; now right].
Qed.

(** X20: discovery of a type other than javascript, css and unknown
    returns [None] whenever it returns: no file has such a type. *)
Theorem discovery_of_another_type_finds_nothing
        (fs : FileSystem) (ft : str) (environment : Environment)
        (found : option (list Resource)) :
  ft <> "javascript" -> ft <> "css" -> ft <> "unknown" ->
  find_all_of_type_in_environment fs ft environment = Ok found ->
  found = None.
Proof.
  intros Hjs Hcss Hunknown H.
  apply discovery_result in H as [Hc Hne].
  assert (Hnone : filter (has_type ft) (candidates fs environment) = []).
  { clear Hc. induction (candidates fs environment) as [|p ps IH]; [reflexivity|].
    simpl. unfold has_type at 1.
    destruct (Py.str_eqb (file_type_of p) ft) eqn:E; [|exact IH].
    apply str_eqb_eq in E.
    destruct (file_type_of_cases p) as [F|[F|F]]; congruence. }
  rewrite Hnone in Hc. unfold constructed in Hc.
  destruct found as [pool|]; [|reflexivity].
  inversion Hc; subst. contradiction.
Qed.

Lemma discovery_of_another_type_finds_nothing_witness :
  (None : option (list Resource)) = None.
Proof.
  apply (discovery_of_another_type_finds_nothing merge_test_fs "html" merge_test_env).
  - discriminate.
  - discriminate.
  - discriminate.
  - vm_compute. reflexivity.
Defined.

(** X21: the base name of a path is that of its file name alone: the
    directory plays no part, so that files of the same name in different
    directories have the same base name. *)
Theorem base_name_ignores_the_directory (d file : str) :
  ~ In "/"%char file ->
  _parse_base_name (d ++ "/" ++ file) = _parse_base_name file.
Proof.
  intros Hfile. rewrite !_parse_base_name_steps.
  change (d ++ "/" ++ file) with (d ++ ("/" : str) ++ file).
  rewrite app_assoc.
  pose proof (split_tail [] file (or_introl eq_refl) Hfile) as Hbare.
  cbn [app] in Hbare. rewrite Hbare.
  rewrite (split_tail (d ++ "/") file); auto.
  right. now exists d.
Qed.

Lemma base_name_ignores_the_directory_witness :
  _parse_base_name ("/tmp/env/dir1" ++ "/" ++ "jQuery-1.2.3.js")
  = _parse_base_name "jQuery-1.2.3.js".
Proof.
  apply (base_name_ignores_the_directory "/tmp/env/dir1" "jQuery-1.2.3.js").
  vm_compute. intuition discriminate.
Defined.
